(** * frugal-router: a shallow embedding of the route registry and dispatcher

    The development follows the library files of the repository:
    - [Js]            the fragment of JavaScript value semantics the router
                      relies on (truthiness, [||], string [+], [split]);
    - [Transport]     [models/transport] ([EHttpMethod], [RouteDefinition]);
    - [Express]       the response object, the replies issued on it and
                      whether the HTTP server takes them, and the console;
    - [Reflect]       the metadata store of [reflect-metadata], with the
                      [Map] objects it references kept in a heap;
    - [Decorators]    [lib/Controller], [lib/Methods], [lib/HttpStatus];
    - [Router]        [lib/Router];
    - [Surface]       how the routing surface serves a request;
    - [App]           [controllers/DefaultController] and the bootstrap;
    - [Probe]         a second controller that exercises the corners;
    - [Declarations]  runs of decorators on a class.
    The theorems come after the definitions. *)

From stdpp Require Import gmap strings list fin_maps.
From Stdlib Require Import ZArith Ascii String.

Local Open Scope Z_scope.
Set Warnings "-register-all".

(* ===================================================================== *)
(** ** JavaScript values *)
(* ===================================================================== *)

Module Js.

(** Values a controller method can hand back to the router.  Numbers are
    the integers (status codes, counters); [NaN] and fractions are not
    represented. *)
Inductive JsValue :=
| JUndefined
| JNull
| JBool (b : bool)
| JNum (n : Z)
| JStr (s : string)
| JArr (items : list JsValue)
| JObj (props : list (string * JsValue)).

(** [ToBoolean]: what [!x] and [x || y] test. *)
Definition truthy (v : JsValue) : bool :=
  match v with
  | JUndefined | JNull => false
  | JBool b => b
  | JNum n => negb (n =? 0)
  | JStr s => negb (String.eqb s "")
  | JArr _ | JObj _ => true
  end.

(** [o.k] on a value: [undefined] when the property is absent. *)
Fixpoint assoc (k : string) (props : list (string * JsValue)) : JsValue :=
  match props with
  | [] => JUndefined
  | (k', v) :: rest => if String.eqb k k' then v else assoc k rest
  end.

Definition prop (o : JsValue) (k : string) : JsValue :=
  match o with
  | JObj props => assoc k props
  | _ => JUndefined
  end.

(** [x || d] where [x] is a number, [undefined] or [null]:
    [None] stands for both [undefined] and [null]. *)
Definition or_number (x : option Z) (d : Z) : Z :=
  match x with
  | Some n => if n =? 0 then d else n
  | None => d
  end.

(** [x + s] where [x] is a string or [undefined] and [s] a string. *)
Definition add_string (x : option string) (s : string) : string :=
  match x with
  | Some p => p +:+ s
  | None => "undefined" +:+ s
  end.

(** [s.split(' ')]. *)
Fixpoint split_space (s : string) : list string :=
  match s with
  | EmptyString => [EmptyString]
  | String c rest =>
      if Ascii.eqb c " " then EmptyString :: split_space rest
      else match split_space rest with
           | tok :: toks => String c tok :: toks
           | [] => [String c EmptyString]
           end
  end.

(** [`${xs[i]}`]: an index out of range prints as [undefined]. *)
Definition interpolate_nth (xs : list string) (i : nat) : string :=
  match xs !! i with
  | Some s => s
  | None => "undefined"
  end.

(** No character of [s] is a space. *)
Fixpoint no_space (s : string) : bool :=
  match s with
  | EmptyString => true
  | String c rest => negb (Ascii.eqb c " ") && no_space rest
  end.

(** The line feed written [\n] in the source. *)
Definition LF : string := String "010"%char EmptyString.

End Js.
Export Js.

(* ===================================================================== *)
(** ** models/transport *)
(* ===================================================================== *)

Module Transport.

(** Modelled from the spec: the enum [EHttpMethod] of [models/transport],
    which is not among the sources.  The spec lists the members as
    "one of {GET, PUT, POST, PATCH, DELETE}". *)
Inductive EHttpMethod := GET | PUT | POST | PATCH | DELETE.

#[export] Instance EHttpMethod_eq_dec : EqDecision EHttpMethod.
Proof. solve_decision. Defined.

(** Modelled from the spec: the string value of each [EHttpMethod] member.
    The router uses the value as the name of the registering operation of
    the routing surface ([this.router[route.requestMethod]]), so it is the
    lower-case method name. *)
Definition EHttpMethod_value (m : EHttpMethod) : string :=
  match m with
  | GET => "get"
  | PUT => "put"
  | POST => "post"
  | PATCH => "patch"
  | DELETE => "delete"
  end.

(** [RouteDefinition], as the method decorators build it. *)
Record RouteDefinition := {
  requestMethod : EHttpMethod;
  path : string;
  methodName : string;
}.

End Transport.
Export Transport.

(* ===================================================================== *)
(** ** The response object and the console *)
(* ===================================================================== *)

Module Express.

Inductive Body :=
| BodyJson (v : JsValue)   (* res.json(v) *)
| BodyEmpty.               (* res.send() *)

(** The response object of one request.  [written] lists, oldest first,
    the replies issued on it, each with the status code set when it was
    issued, whether the HTTP server took the reply or refused it.
    [finished] tells that a reply has been taken. *)
Record Response := {
  statusCode : Z;
  finished : bool;
  written : list (Z * Body);
}.

(** Whether the HTTP server takes a reply issued on [res].  It refuses, by
    throwing, a reply on a response that has been sent already and a reply
    whose status code is not within 100..999; the response is then left
    unfinished as far as this reply goes. *)
Definition accepts (res : Response) : bool :=
  negb (finished res) && (100 <=? statusCode res) && (statusCode res <=? 999).

(** A response nobody has touched yet. *)
Definition fresh_response : Response :=
  {| statusCode := 200; finished := false; written := [] |}.

(** [res.status(code)] *)
Definition res_status (code : Z) (res : Response) : Response :=
  {| statusCode := code; finished := finished res; written := written res |}.

(** [res.json(v)]: the response object after the call, taken or refused;
    [accepts] tells which. *)
Definition res_json (v : JsValue) (res : Response) : Response :=
  {| statusCode := statusCode res; finished := finished res || accepts res;
     written := written res ++ [(statusCode res, BodyJson v)] |}.

(** [res.send()], likewise. *)
Definition res_send (res : Response) : Response :=
  {| statusCode := statusCode res; finished := finished res || accepts res;
     written := written res ++ [(statusCode res, BodyEmpty)] |}.

(** The request, as far as controller methods and route matching look at
    it. *)
Record Request := {
  req_method : string;
  req_url : string;
  req_params : JsValue;
  req_body : JsValue;
}.

(** One call of [console.warn] or [console.error] with its arguments. *)
Inductive ConsoleEntry :=
| ConsoleWarn (args : list string)
| ConsoleError (args : list string).

End Express.
Export Express.

(* ===================================================================== *)
(** ** lib/HttpException *)
(* ===================================================================== *)

Module Exception.

(** The class [HttpException]: its two private fields. *)
Record HttpException := {
  error : string;
  status : Z;
}.

(** [getError()]: the object literal [{ error, status }]. *)
Definition getError (e : HttpException) : JsValue :=
  JObj [("error"%string, JStr (error e)); ("status"%string, JNum (status e))].

End Exception.
Import Exception(HttpException, getError).

(* ===================================================================== *)
(** ** Controller classes *)
(* ===================================================================== *)

Module Controllers.

(** What a controller method can throw, or reject its promise with:
    an instance of [HttpException], or anything else. *)
Inductive Thrown :=
| ThrownHttpException (e : HttpException)
| ThrownOther (detail : JsValue).

(** How [await instance[methodName](req, res)] ends: with a value, with
    something thrown or a rejection, or never, when the method returns a
    promise that does not settle. *)
Inductive Outcome :=
| Returned (v : JsValue)
| Raised (t : Thrown)
| NeverSettles.

(** What a reply the HTTP server refuses throws: an [Error] of the server,
    not an [HttpException]. *)
Definition refusal : Thrown := ThrownOther (JStr "Error").

(** A controller method receives the request and the response object; it may
    reply on the response object itself before it returns or throws. *)
Definition Method : Type := Request -> Response -> Outcome * Response.

(** A controller class: its identity as an object (the key under which
    [Reflect] files metadata), the text [toString()] gives for it, and the
    methods an instance made by [new] has. *)
Record ControllerClass := {
  class_id : positive;
  class_source : string;
  class_new : string -> option Method;
}.

End Controllers.
Export Controllers.

(* ===================================================================== *)
(** ** Reflect metadata *)
(* ===================================================================== *)

Module Reflect.

(** The metadata the decorators file under a class, one map per key.
    ['response_status_codes'] holds a [Map<string, number>] object: the
    store keeps a reference, and the [Map] itself lives in [md_maps], so a
    reference read once still sees later [set] calls.  ['routes'] holds an
    array that only [register] reads, once, with [forEach]; it is kept by
    value.  An entry under a class is what [Reflect.getMetadata] returns for
    that class.  The store covers classes that inherit no metadata: what a
    decorator on one class changes for the classes derived from it is not
    represented. *)
Record Metadata := {
  md_prefix : gmap positive string;
  md_routes : gmap positive (list RouteDefinition);
  md_status : gmap positive positive;
  md_maps : gmap positive (gmap string Z);
}.

(** No class declared yet. *)
Definition no_metadata : Metadata :=
  {| md_prefix := ∅; md_routes := ∅; md_status := ∅; md_maps := ∅ |}.

(** [statusCodes.get(key)] through a reference. *)
Definition Map_get (md : Metadata) (ref : positive) (key : string) : option Z :=
  match md_maps md !! ref with
  | Some m => m !! key
  | None => None
  end.

(** [statusCodes.set(key, code)] through a reference. *)
Definition Map_set (ref : positive) (key : string) (code : Z) (md : Metadata)
  : Metadata :=
  {| md_prefix := md_prefix md;
     md_routes := md_routes md;
     md_status := md_status md;
     md_maps := alter (fun m : gmap string Z => <[key := code]> m) ref (md_maps md) |}.

(** [Reflect.defineMetadata('response_status_codes', new Map(), target)]:
    the new [Map] gets a reference nothing else uses. *)
Definition define_new_Map (target : positive) (md : Metadata) : Metadata :=
  let ref := fresh (dom (md_maps md)) in
  {| md_prefix := md_prefix md;
     md_routes := md_routes md;
     md_status := <[target := ref]> (md_status md);
     md_maps := <[ref := (∅ : gmap string Z)]> (md_maps md) |}.

(** [Reflect.defineMetadata('routes', routes, target)] *)
Definition define_routes (target : positive) (routes : list RouteDefinition)
    (md : Metadata) : Metadata :=
  {| md_prefix := md_prefix md;
     md_routes := <[target := routes]> (md_routes md);
     md_status := md_status md;
     md_maps := md_maps md |}.

(** [Reflect.defineMetadata('prefix', prefix, target)] *)
Definition define_prefix (target : positive) (prefix : string) (md : Metadata)
  : Metadata :=
  {| md_prefix := <[target := prefix]> (md_prefix md);
     md_routes := md_routes md;
     md_status := md_status md;
     md_maps := md_maps md |}.

End Reflect.
Export Reflect.

(* ===================================================================== *)
(** ** lib/Controller, lib/Methods, lib/HttpStatus *)
(* ===================================================================== *)

Module Decorators.

(** [@Controller(prefix)], the class decorator: [target] is the class. *)
Definition Controller (prefix : string) (target : positive) (md : Metadata)
  : Metadata :=
  let md := define_prefix target prefix md in
  match md_routes md !! target with
  | None => define_routes target [] md
  | Some _ => md
  end.

(** The method decorators.  [target] is [target.constructor] of the source,
    the class whose prototype carries the decorated method. *)
Definition defineRouteDecorator (requestMethod : EHttpMethod) (path : string)
    (target : positive) (propertyKey : string) (md : Metadata) : Metadata :=
  let md :=
    match md_routes md !! target with
    | None => define_routes target [] md
    | Some _ => md
    end in
  match md_routes md !! target with
  | Some routes =>
      define_routes target
        (routes ++ [{| requestMethod := requestMethod; path := path;
                       methodName := propertyKey |}]) md
  | None => md
  end.

Definition Get := defineRouteDecorator GET.
Definition Put := defineRouteDecorator PUT.
Definition Post := defineRouteDecorator POST.
Definition Patch := defineRouteDecorator PATCH.
Definition Delete := defineRouteDecorator DELETE.

(** [@HttpStatus(code)]: creates the [Map] on first use for the class, then
    [set]s the code in the [Map] the metadata refers to. *)
Definition HttpStatus (code : Z) (target : positive) (propertyKey : string)
    (md : Metadata) : Metadata :=
  let md :=
    match md_status md !! target with
    | None => define_new_Map target md
    | Some _ => md
    end in
  match md_status md !! target with
  | Some statusCodes => Map_set statusCodes propertyKey code md
  | None => md
  end.

End Decorators.

(* ===================================================================== *)
(** ** lib/Router *)
(* ===================================================================== *)

Module Router.

(** What one request handler works on: the metadata store as it is when the
    request is served, the response object of the request, and the
    console. *)
Record World := {
  w_metadata : Metadata;
  w_res : Response;
  w_console : list ConsoleEntry;
}.

(** The variables the arrow function passed to the routing surface closes
    over: [instance], [controller], [statusCodes] (the reference read at
    registration, or [undefined]) and [route]. *)
Record BoundHandler := {
  h_instance : string -> option Method;
  h_controller : ControllerClass;
  h_statusCodes : option positive;
  h_route : RouteDefinition;
}.

(** [controller.toString().split(' ')[1]] inside a template literal. *)
Definition controllerName (controller : ControllerClass) : string :=
  interpolate_nth (split_space (class_source controller)) 1.

(** [Reflect.getMetadata('prefix', controller) + route.path], as the two
    diagnostics compute it when they are emitted. *)
Definition diagnosticRoute (md : Metadata) (controller : ControllerClass)
    (route : RouteDefinition) : string :=
  add_string (md_prefix md !! class_id controller) (path route).

Definition with_res (w : World) (res : Response) : World :=
  {| w_metadata := w_metadata w; w_res := res; w_console := w_console w |}.

Definition with_console (w : World) (entry : ConsoleEntry) : World :=
  {| w_metadata := w_metadata w; w_res := w_res w;
     w_console := w_console w ++ [entry] |}.

(** How a run of statements ends: it reaches its end, it throws, or it
    stops for good at an [await] that never resumes. *)
Inductive Completion :=
| Completed
| Threw (t : Thrown)
| Suspended.

(** The statement [res.status(code).json(v)]: the reply is issued, and the
    statement throws when the server refuses it. *)
Definition reply_json (code : Z) (v : JsValue) (w : World)
  : Completion * World :=
  let res := res_status code (w_res w) in
  (if accepts res then Completed else Threw refusal,
   with_res w (res_json v res)).

(** The statement [res.status(code).send()], likewise. *)
Definition reply_empty (code : Z) (w : World) : Completion * World :=
  let res := res_status code (w_res w) in
  (if accepts res then Completed else Threw refusal,
   with_res w (res_send res)).

Definition sendNoData (route : RouteDefinition) (controller : ControllerClass)
    (w : World) : Completion * World :=
  reply_empty 204
    (with_console w
       (ConsoleWarn
          [" * Warning - Method returned no response: " +:+ controllerName controller +:+ LF;
           "* Route:                                 " +:+ diagnosticRoute (w_metadata w) controller route +:+ LF;
           "* Controller method name:                " +:+ methodName route +:+ LF;
           "* HTTP method type:                      " +:+ EHttpMethod_value (requestMethod route) +:+ LF])).

Definition Internal_Server_Error : JsValue :=
  JObj [("error"%string, JStr "Internal Server Error");
        ("status"%string, JNum 500)].

Definition handleUnknownException (route : RouteDefinition)
    (controller : ControllerClass) (w : World) : Completion * World :=
  reply_json 500 Internal_Server_Error
    (with_console w
       (ConsoleError
          [" * Error - Unknown exception thrown: " +:+ controllerName controller +:+ LF;
           "* Route:                    " +:+ diagnosticRoute (w_metadata w) controller route +:+ LF;
           "* Controller method name:   " +:+ methodName route +:+ LF;
           "* HTTP method type:         " +:+ EHttpMethod_value (requestMethod route) +:+ LF])).

(** [instance[route.methodName](req, res)]: calling what is not a function
    throws a [TypeError], which is not an [HttpException]. *)
Definition invoke (instance : string -> option Method) (name : string)
    (req : Request) (res : Response) : Outcome * Response :=
  match instance name with
  | Some method => method req res
  | None => (Raised (ThrownOther (JStr "TypeError")), res)
  end.

(** The status code of a reply the router sends for a returned value:
    [(statusCodes ? statusCodes.get(route.methodName) : null) ||
     (route.requestMethod == EHttpMethod.POST ? 201 : 200)]. *)
Definition resolveStatusCode (md : Metadata) (statusCodes : option positive)
    (route : RouteDefinition) : Z :=
  or_number
    (match statusCodes with
     | Some ref => Map_get md ref (methodName route)
     | None => None
     end)
    (if decide (requestMethod route = POST) then 201 else 200).

(** The [try] block of the request handler: the call of the controller
    method, awaited, and what follows it up to the reply. *)
Definition try_block (h : BoundHandler) (req : Request) (w : World)
  : Completion * World :=
  let route := h_route h in
  let controller := h_controller h in
  let '(outcome, res) :=
    invoke (h_instance h) (methodName route) req (w_res w) in
  let w := with_res w res in
  match outcome with
  | NeverSettles => (Suspended, w)
  | Raised error => (Threw error, w)
  | Returned response =>
      if negb (truthy response) && finished res then (Completed, w)
      else if negb (truthy response) && negb (finished res) then
        sendNoData route controller w
      else
        let statusCode :=
          resolveStatusCode (w_metadata w) (h_statusCodes h) route in
        reply_json statusCode response w
  end.

(** The [catch] block, entered with what the [try] block threw. *)
Definition catch_block (h : BoundHandler) (error : Thrown) (w : World)
  : Completion * World :=
  match error with
  | ThrownHttpException error =>
      let response := getError error in
      reply_json (Exception.status error) response w
  | ThrownOther _ =>
      handleUnknownException (h_route h) (h_controller h) w
  end.

(** The request handler [register] binds for one route, run on one request:
    how its promise ends ([Completed]: resolved, [Threw]: rejected with
    nobody to catch it, [Suspended]: never settled) and the world it
    leaves. *)
Definition handler_run (h : BoundHandler) (req : Request) (w : World)
  : Completion * World :=
  match try_block h req w with
  | (Threw error, w) => catch_block h error w
  | ended => ended
  end.

(** The world the request handler leaves. *)
Definition handler (h : BoundHandler) (req : Request) (w : World) : World :=
  snd (handler_run h req w).

Definition Not_Found : JsValue :=
  JObj [("error"%string, JStr "Not Found"); ("status"%string, JNum 404)].

Definition notFoundHandler (req : Request) (w : World) : World :=
  with_res w (res_json Not_Found (res_status 404 (w_res w))).

(** One entry of the stack of the Express router: a handler bound to a
    method and a path with [router[method](path, f)], or a handler for
    every request added with [router.use(f)]. *)
Inductive Layer :=
| LRoute (method : EHttpMethod) (path : string) (h : BoundHandler)
| LUse (f : Request -> World -> World).

(** [ExpressRouter()] *)
Definition ExpressRouter : list Layer := [].

(** The failure of [routes.forEach] when [routes] is [undefined]. *)
Inductive RegisterError := TypeError_routes_undefined.

(** The body of the [forEach] callback for one route. *)
Definition bind (instance : string -> option Method)
    (controller : ControllerClass) (prefix : option string)
    (statusCodes : option positive) (router : list Layer)
    (route : RouteDefinition) : list Layer :=
  let path := add_string prefix (Transport.path route) in
  router ++
  [LRoute (requestMethod route) path
     {| h_instance := instance; h_controller := controller;
        h_statusCodes := statusCodes; h_route := route |}].

(** [register(controller)]: the router after the call, or the error that
    ends it. *)
Definition register (md : Metadata) (controller : ControllerClass)
    (router : list Layer) : RegisterError + list Layer :=
  let instance := class_new controller in
  let prefix := md_prefix md !! class_id controller in
  let statusCodes := md_status md !! class_id controller in
  match md_routes md !! class_id controller with
  | None => inl TypeError_routes_undefined
  | Some routes =>
      inr (foldl (bind instance controller prefix statusCodes) router routes)
  end.

(** [middleware()]: the router it returns, the not-found handler added. *)
Definition middleware (router : list Layer) : list Layer :=
  router ++ [LUse notFoundHandler].

End Router.
Export Router.

(* ===================================================================== *)
(** ** The routing surface serving a request *)
(* ===================================================================== *)

Module Surface.

Section Dispatch.

(** The path-matching rule of the HTTP server: whether a handler bound to a
    method and a path pattern is the one for a request.  It belongs to the
    server, so it is left open. *)
Variable route_matches : EHttpMethod -> string -> Request -> bool.

(** Modelled from the spec: how the routing surface of the HTTP server, which
    is not among the sources, serves a request.  It invokes the first handler
    of the stack, in registration order, that is bound to a matching method
    and path or was added for every request; the handlers of this library
    take no [next] and so end the request.  [None]: no handler took it. *)
Fixpoint dispatch (stack : list Layer) (req : Request) (w : World)
  : option World :=
  match stack with
  | [] => None
  | LRoute method path h :: rest =>
      if route_matches method path req then Some (handler h req w)
      else dispatch rest req w
  | LUse f :: _ => Some (f req w)
  end.

(** A request matches no registered route of a stack. *)
Definition no_route_matches (stack : list Layer) (req : Request) : bool :=
  forallb
    (fun layer =>
       match layer with
       | LRoute method path _ => negb (route_matches method path req)
       | LUse _ => true
       end)
    stack.

End Dispatch.

(** The routers a program can hold: a new one, and what [register] and
    [middleware] make of one. *)
Inductive assembled : list Layer -> Prop :=
| assembled_new : assembled ExpressRouter
| assembled_register md controller router router' :
    assembled router ->
    register md controller router = inr router' ->
    assembled router'
| assembled_middleware router :
    assembled router -> assembled (middleware router).

End Surface.
Export Surface.

(* ===================================================================== *)
(** ** controllers/DefaultController and the bootstrap *)
(* ===================================================================== *)

Module App.

Import Decorators.

Definition indexAction : Method := fun req res =>
  (Returned (JObj [("hello"%string, JStr "hi!")]), res).

Definition idAction : Method := fun req res =>
  (Returned (JObj [("id"%string, prop (req_params req) "id")]), res).

Definition postAction : Method := fun req res =>
  (Raised (ThrownHttpException
             {| Exception.error := "Forbidden"; Exception.status := 403 |}),
   res).

(** [await new Promise((resolve, reject) => reject())] *)
Definition putAction : Method := fun req res =>
  (Raised (ThrownOther JUndefined), res).

Definition deleteAction : Method := fun req res =>
  ((if accepts res then Returned JUndefined else Raised refusal),
   res_json
     (JObj [("message"%string,
             JStr "Ignore the router and directly access the express response object")])
     res).

Definition patchAction : Method := fun req res => (Returned JUndefined, res).

(** The class [DefaultController].  [class_source] is the head of the text
    [toString()] gives for the class. *)
Definition DefaultController : ControllerClass :=
  {| class_id := 1%positive;
     class_source := "class DefaultController {";
     class_new := fun name =>
       if String.eqb name "indexAction" then Some indexAction
       else if String.eqb name "idAction" then Some idAction
       else if String.eqb name "postAction" then Some postAction
       else if String.eqb name "putAction" then Some putAction
       else if String.eqb name "deleteAction" then Some deleteAction
       else if String.eqb name "patchAction" then Some patchAction
       else None |}.

(** The decorators of [DefaultController] in the order they run: for each
    method, from the decorator nearest to it upwards, then the class
    decorator. *)
Definition DefaultController_decorators : list (Metadata -> Metadata) :=
  let C := class_id DefaultController in
  [ HttpStatus 300 C "indexAction"; Get "/" C "indexAction";
    HttpStatus 200 C "idAction";    Get "/:id" C "idAction";
    Post "/" C "postAction";
    Put "/" C "putAction";
    Delete "/" C "deleteAction";
    Patch "/" C "patchAction";
    Controller "/api" C ].

Definition decorate (ds : list (Metadata -> Metadata)) (md : Metadata)
  : Metadata :=
  foldl (fun md d => d md) md ds.

(** The metadata once the module of [DefaultController] is loaded. *)
Definition loaded : Metadata := decorate DefaultController_decorators no_metadata.

(** [router.register(DefaultController); app.use(router.middleware())] *)
Definition bootstrap : RegisterError + list Layer :=
  match register loaded DefaultController ExpressRouter with
  | inl e => inl e
  | inr router => inr (middleware router)
  end.

(** A request as it arrives, nothing written and nothing logged. *)
Definition arriving (md : Metadata) : World :=
  {| w_metadata := md; w_res := fresh_response; w_console := [] |}.

Definition request (method url : string) : Request :=
  {| req_method := method; req_url := url;
     req_params := JObj []; req_body := JUndefined |}.

(** A matching rule for examples: method names agree and the pattern is the
    path itself. *)
Definition exact_match (m : EHttpMethod) (pattern : string) (req : Request)
  : bool :=
  String.eqb (EHttpMethod_value m) (req_method req)
  && String.eqb pattern (req_url req).

End App.


(* ===================================================================== *)
(** ** Notions the statements use *)
(* ===================================================================== *)

(** The handler [register] binds for [route] when the metadata store is
    [md]: the closure over the instance, the class, the reference to the
    status-code [Map] read from [md], and the route. *)
Definition bound (md : Metadata) (controller : ControllerClass)
    (route : RouteDefinition) : BoundHandler :=
  {| h_instance := class_new controller;
     h_controller := controller;
     h_statusCodes := md_status md !! class_id controller;
     h_route := route |}.

(** The status override a controller class has declared for a handler name,
    if any. *)
Definition statusOverride (md : Metadata) (controller : ControllerClass)
    (handlerName : string) : option Z :=
  match md_status md !! class_id controller with
  | Some ref => Map_get md ref handlerName
  | None => None
  end.

(** The status code as the specification resolves it: the override if
    present, otherwise 201 for POST, else 200. *)
Definition spec_statusCode (override : option Z) (method : EHttpMethod) : Z :=
  match override with
  | Some code => code
  | None => if decide (method = POST) then 201 else 200
  end.

(** The class was never declared through a decorator: the lookups of
    [register] find no metadata of any key for it. *)
Definition no_route_table (md : Metadata) (controller : ControllerClass)
  : Prop :=
  md_prefix md !! class_id controller = None /\
  md_routes md !! class_id controller = None /\
  md_status md !! class_id controller = None.

(** The method and path of every route handler of a stack. *)
Definition bindings (stack : list Layer) : list (EHttpMethod * string) :=
  omap (fun layer =>
          match layer with
          | LRoute method path _ => Some (method, path)
          | LUse _ => None
          end)
    stack.

(** The store of a world replaced, as a declaration made between two
    requests does. *)
Definition with_metadata (w : World) (md : Metadata) : World :=
  {| w_metadata := md; w_res := w_res w; w_console := w_console w |}.

(* ===================================================================== *)
(** ** A second controller, for the corners of the handler *)
(* ===================================================================== *)

Module Probe.

Import Decorators.

(** Returns [v] and leaves the response object alone. *)
Definition returning (v : JsValue) : Method := fun req res => (Returned v, res).

(** Replies on the response object, then also returns a value. *)
Definition both : Method := fun req res =>
  ((if accepts res then Returned (JObj [("returned"%string, JBool true)])
    else Raised refusal),
   res_json (JObj [("direct"%string, JBool true)]) res).

Definition ProbeController : ControllerClass :=
  {| class_id := 2%positive;
     class_source := "class ProbeController {";
     class_new := fun name =>
       if String.eqb name "create" then
         Some (returning (JObj [("ok"%string, JBool true)]))
       else if String.eqb name "zero" then Some (returning (JNum 0))
       else if String.eqb name "empty" then Some (returning (JStr ""))
       else if String.eqb name "no" then Some (returning (JBool false))
       else if String.eqb name "nothing" then Some (returning JNull)
       else if String.eqb name "both" then Some both
       else None |}.

Definition create_route : RouteDefinition :=
  {| requestMethod := POST; path := "/"; methodName := "create" |}.

Definition get_route (name : string) : RouteDefinition :=
  {| requestMethod := GET; path := "/" +:+ name; methodName := name |}.

(** [@Post('/') @HttpStatus(0) create], the five [@Get] methods, and
    [@Controller('/probe')]. *)
Definition ProbeController_decorators : list (Metadata -> Metadata) :=
  let C := class_id ProbeController in
  [ HttpStatus 0 C "create"; Post "/" C "create";
    Get "/zero" C "zero"; Get "/empty" C "empty"; Get "/no" C "no";
    Get "/nothing" C "nothing"; Get "/both" C "both";
    Controller "/probe" C ].

Definition loaded : Metadata :=
  App.decorate ProbeController_decorators no_metadata.

(** The store when [ProbeController] declares only [create], under the
    method decorators [ds] and [@Post('/')]. *)
Definition create_only (ds : list (Metadata -> Metadata)) : Metadata :=
  let C := class_id ProbeController in
  App.decorate (ds ++ [Post "/" C "create"; Controller "/probe" C]) no_metadata.

End Probe.

(* ===================================================================== *)
(** ** Runs of decorators *)
(* ===================================================================== *)

Module Declarations.

(** One decorator being applied, with the arguments the source passes.
    The statements about runs are about the decorators of one class, on a
    store in which the lookups for that class found nothing before: what
    decorators applied to other classes in between would change is outside
    what the store represents (see [Reflect]). *)
Inductive Declaration :=
| DeclarePrefix (prefix : string) (target : positive)
| DeclareRoute (method : EHttpMethod) (path : string) (target : positive)
    (propertyKey : string)
| DeclareStatus (code : Z) (target : positive) (propertyKey : string).

Definition declare (d : Declaration) (md : Metadata) : Metadata :=
  match d with
  | DeclarePrefix prefix target => Decorators.Controller prefix target md
  | DeclareRoute method path target propertyKey =>
      Decorators.defineRouteDecorator method path target propertyKey md
  | DeclareStatus code target propertyKey =>
      Decorators.HttpStatus code target propertyKey md
  end.

(** The decorators of a program applied one after the other. *)
Definition declare_all (ds : list Declaration) (md : Metadata) : Metadata :=
  foldl (fun md d => declare d md) md ds.

(** What a run of decorators says about one class, read off the run alone:
    the route entries in the order declared, the prefixes given, the codes
    given for one handler name, and whether any decorator that defines
    ['routes'] was applied. *)
Definition routes_declared (target : positive) (ds : list Declaration)
  : list RouteDefinition :=
  omap (fun d =>
          match d with
          | DeclareRoute method path target' propertyKey =>
              if decide (target' = target) then
                Some {| requestMethod := method; path := path;
                        methodName := propertyKey |}
              else None
          | _ => None
          end)
    ds.

Definition prefixes_declared (target : positive) (ds : list Declaration)
  : list string :=
  omap (fun d =>
          match d with
          | DeclarePrefix prefix target' =>
              if decide (target' = target) then Some prefix else None
          | _ => None
          end)
    ds.

Definition codes_declared (target : positive) (propertyKey : string)
    (ds : list Declaration) : list Z :=
  omap (fun d =>
          match d with
          | DeclareStatus code target' propertyKey' =>
              if decide (target' = target /\ propertyKey' = propertyKey)
              then Some code else None
          | _ => None
          end)
    ds.

Definition defines_routes (target : positive) (d : Declaration) : bool :=
  match d with
  | DeclarePrefix _ target' | DeclareRoute _ _ target' _ =>
      bool_decide (target' = target)
  | DeclareStatus _ _ _ => false
  end.

(** The class a decorator is applied to. *)
Definition declared_on (d : Declaration) : positive :=
  match d with
  | DeclarePrefix _ target | DeclareRoute _ _ target _
  | DeclareStatus _ target _ => target
  end.

(** Every decorator of the run is applied to [target]. *)
Definition all_on (target : positive) (ds : list Declaration) : bool :=
  forallb (fun d => bool_decide (declared_on d = target)) ds.

(** Every reference of the store refers to a [Map] that exists. *)
Definition live (md : Metadata) : Prop :=
  forall target ref,
    md_status md !! target = Some ref -> is_Some (md_maps md !! ref).

(** The decorators of [DefaultController], in the order they run. *)
Definition DefaultController_declared : list Declaration :=
  let C := class_id App.DefaultController in
  [ DeclareStatus 300 C "indexAction"; DeclareRoute GET "/" C "indexAction";
    DeclareStatus 200 C "idAction";    DeclareRoute GET "/:id" C "idAction";
    DeclareRoute POST "/" C "postAction";
    DeclareRoute PUT "/" C "putAction";
    DeclareRoute DELETE "/" C "deleteAction";
    DeclareRoute PATCH "/" C "patchAction";
    DeclarePrefix "/api" C ].

End Declarations.
Export Declarations.

(* ===================================================================== *)
(** ** The equations of the request handler *)
(* ===================================================================== *)

Section HandlerEquations.

Variables (h : BoundHandler) (req : Request) (w : World).
Variable res1 : Response.

Local Abbreviation called o :=
  (invoke (h_instance h) (methodName (h_route h)) req (w_res w) = (o, res1)).

Lemma handler_run_falsy_finished v :
  called (Returned v) -> truthy v = false -> finished res1 = true ->
  handler_run h req w = (Completed, with_res w res1).
Proof.
  unfold handler_run, try_block. intros -> Hv Hf. cbn. by rewrite Hv, Hf.
Qed.

Lemma handler_run_falsy_unfinished v :
  called (Returned v) -> truthy v = false -> finished res1 = false ->
  handler_run h req w =
  (Completed,
   snd (sendNoData (h_route h) (h_controller h) (with_res w res1))).
Proof.
  unfold handler_run, try_block. intros -> Hv Hf. cbn.
  rewrite Hv, Hf. cbn. unfold sendNoData, reply_empty, accepts. cbn.
  by rewrite Hf.
Qed.

Lemma handler_run_truthy_accepted v :
  called (Returned v) -> truthy v = true ->
  accepts
    (res_status
       (resolveStatusCode (w_metadata w) (h_statusCodes h) (h_route h))
       res1) = true ->
  handler_run h req w =
  (Completed,
   with_res w
     (res_json v
        (res_status
           (resolveStatusCode (w_metadata w) (h_statusCodes h) (h_route h))
           res1))).
Proof.
  unfold handler_run, try_block. intros -> Hv Hacc. cbn.
  rewrite Hv. cbn. unfold reply_json. cbn. by rewrite Hacc.
Qed.

Lemma handler_run_truthy_refused v :
  called (Returned v) -> truthy v = true ->
  accepts
    (res_status
       (resolveStatusCode (w_metadata w) (h_statusCodes h) (h_route h))
       res1) = false ->
  handler_run h req w =
  handleUnknownException (h_route h) (h_controller h)
    (with_res w
       (res_json v
          (res_status
             (resolveStatusCode (w_metadata w) (h_statusCodes h) (h_route h))
             res1))).
Proof.
  unfold handler_run, try_block. intros -> Hv Hacc. cbn.
  rewrite Hv. cbn. unfold reply_json. cbn. by rewrite Hacc.
Qed.

Lemma handler_run_http_exception e :
  called (Raised (ThrownHttpException e)) ->
  handler_run h req w =
  reply_json (Exception.status e) (getError e) (with_res w res1).
Proof. unfold handler_run, try_block. by intros ->. Qed.

Lemma handler_run_unknown_exception detail :
  called (Raised (ThrownOther detail)) ->
  handler_run h req w =
  handleUnknownException (h_route h) (h_controller h) (with_res w res1).
Proof. unfold handler_run, try_block. by intros ->. Qed.

Lemma handler_run_never_settles :
  called NeverSettles ->
  handler_run h req w = (Suspended, with_res w res1).
Proof. unfold handler_run, try_block. by intros ->. Qed.

End HandlerEquations.

(* ===================================================================== *)
(** ** What a handler does with the outcome of the controller method *)
(* ===================================================================== *)

(** C3.  When the controller method throws, or rejects with, an
    [HttpException] carrying message [m] and status [s], the handler issues
    exactly one reply after whatever the method wrote itself: status [s] with
    the JSON body [{"error": m, "status": s}].  It logs nothing and leaves
    the metadata as it was. *)
Theorem declared_exception_reply (h : BoundHandler) (req : Request)
    (w : World) (res1 : Response) (m : string) (s : Z) :
  invoke (h_instance h) (methodName (h_route h)) req (w_res w) =
    (Raised (ThrownHttpException
               {| Exception.error := m; Exception.status := s |}), res1) ->
  written (w_res (handler h req w)) =
    written res1 ++
    [(s, BodyJson (JObj [("error"%string, JStr m); ("status"%string, JNum s)]))]
  /\ w_console (handler h req w) = w_console w
  /\ w_metadata (handler h req w) = w_metadata w.
Proof.
  intros Hcall. unfold handler.
  by rewrite (handler_run_http_exception _ _ _ _ _ Hcall).
Qed.

Lemma declared_exception_reply_witness :
  written
    (w_res
       (handler
          (bound App.loaded App.DefaultController
             {| requestMethod := POST; path := "/"; methodName := "postAction" |})
          (App.request "post" "/api/") (App.arriving App.loaded))) =
  [(403, BodyJson (JObj [("error"%string, JStr "Forbidden");
                         ("status"%string, JNum 403)]))].
Proof.
  apply (declared_exception_reply
           (bound App.loaded App.DefaultController
              {| requestMethod := POST; path := "/"; methodName := "postAction" |})
           (App.request "post" "/api/") (App.arriving App.loaded)
           fresh_response "Forbidden" 403).
  reflexivity.
Defined.

(** X15.  When the controller method completes without raising, the
    response has already been finished by the method itself, and the method
    returned nothing (or any other falsy value), the handler does nothing
    further: the response object and the console are as the method left
    them, and the handler's promise resolves. *)
Theorem direct_reply_left_alone (h : BoundHandler) (req : Request)
    (w : World) (res1 : Response) (v : JsValue) :
  invoke (h_instance h) (methodName (h_route h)) req (w_res w) =
    (Returned v, res1) ->
  finished res1 = true ->
  truthy v = false ->
  w_res (handler h req w) = res1
  /\ w_console (handler h req w) = w_console w
  /\ w_metadata (handler h req w) = w_metadata w.
Proof.
  intros Hcall Hfin Hv. unfold handler.
  by rewrite (handler_run_falsy_finished _ _ _ _ _ Hcall Hv Hfin).
Qed.

Lemma direct_reply_left_alone_witness :
  let handled :=
    handler
      (bound App.loaded App.DefaultController
         {| requestMethod := DELETE; path := "/"; methodName := "deleteAction" |})
      (App.request "delete" "/api/") (App.arriving App.loaded) in
  written (w_res handled) =
    [(200,
      BodyJson
        (JObj [("message"%string,
                JStr "Ignore the router and directly access the express response object")]))]
  /\ w_console handled = [].
Proof.
  destruct (direct_reply_left_alone
              (bound App.loaded App.DefaultController
                 {| requestMethod := DELETE; path := "/";
                    methodName := "deleteAction" |})
              (App.request "delete" "/api/") (App.arriving App.loaded)
              (snd (App.deleteAction (App.request "delete" "/api/")
                      fresh_response))
              JUndefined eq_refl eq_refl eq_refl) as (Hres & Hcon & _).
  cbv zeta. rewrite Hres, Hcon. split; reflexivity.
Defined.

(** C4, at the input where the code departs from it.  The method of
    [ProbeController.both] replies on the response object and also returns
    a value.  The handler does not stop there: it issues a second reply with
    the returned value, which the server refuses; the [catch] block then
    calls [console.error] and issues a third reply, 500, refused as well, and
    the handler's promise is rejected with nobody to catch it. *)
Lemma direct_reply_with_value_written_again :
  let req := App.request "get" "/probe/both" in
  let res1 := snd (Probe.both req fresh_response) in
  let run :=
    handler_run
      (bound Probe.loaded Probe.ProbeController (Probe.get_route "both"))
      req (App.arriving Probe.loaded) in
  invoke (class_new Probe.ProbeController) "both" req fresh_response =
    (Returned (JObj [("returned"%string, JBool true)]), res1)
  /\ finished res1 = true
  /\ written res1 = [(200, BodyJson (JObj [("direct"%string, JBool true)]))]
  /\ written (w_res (snd run)) =
     [(200, BodyJson (JObj [("direct"%string, JBool true)]));
      (200, BodyJson (JObj [("returned"%string, JBool true)]));
      (500, BodyJson (JObj [("error"%string, JStr "Internal Server Error");
                            ("status"%string, JNum 500)]))]
  /\ w_console (snd run) =
     [ConsoleError
        [" * Error - Unknown exception thrown: " +:+ "ProbeController" +:+ LF;
         "* Route:                    " +:+ "/probe/both" +:+ LF;
         "* Controller method name:   " +:+ "both" +:+ LF;
         "* HTTP method type:         " +:+ "get" +:+ LF]]
  /\ fst run = Threw refusal.
Proof. vm_compute. repeat split; reflexivity. Qed.

(** C5, as amended.  When the controller method completes without raising,
    returns a truthy value and has not finished the response itself, and
    the resolved status code is one the server takes (100 to 999), the
    handler replies with the resolved status code and the returned value as
    the JSON body, and with nothing else. *)
Theorem returned_value_reply (h : BoundHandler) (req : Request)
    (w : World) (res1 : Response) (v : JsValue) :
  invoke (h_instance h) (methodName (h_route h)) req (w_res w) =
    (Returned v, res1) ->
  finished res1 = false ->
  truthy v = true ->
  100 <= resolveStatusCode (w_metadata w) (h_statusCodes h) (h_route h) <= 999 ->
  written (w_res (handler h req w)) =
    written res1 ++
    [(resolveStatusCode (w_metadata w) (h_statusCodes h) (h_route h),
      BodyJson v)]
  /\ w_console (handler h req w) = w_console w.
Proof.
  intros Hcall Hfin Hv [Hlo Hhi]. unfold handler.
  rewrite (handler_run_truthy_accepted _ _ _ _ _ Hcall Hv); [done|].
  unfold accepts. cbn. rewrite Hfin. cbn.
  apply andb_true_intro. split; by apply Z.leb_le.
Qed.

Lemma returned_value_reply_witness :
  written
    (w_res
       (handler
          (bound App.loaded App.DefaultController
             {| requestMethod := GET; path := "/"; methodName := "indexAction" |})
          (App.request "get" "/api/") (App.arriving App.loaded))) =
  [(300, BodyJson (JObj [("hello"%string, JStr "hi!")]))].
Proof.
  destruct (returned_value_reply
              (bound App.loaded App.DefaultController
                 {| requestMethod := GET; path := "/";
                    methodName := "indexAction" |})
              (App.request "get" "/api/") (App.arriving App.loaded)
              fresh_response (JObj [("hello"%string, JStr "hi!")])
              eq_refl eq_refl eq_refl) as [Hres _].
  - vm_compute. split; discriminate.
  - rewrite Hres. vm_compute. reflexivity.
Defined.

(** C5 as stated fails: for the returned values [0], [""], [false] and
    [null] the handler replies 204 with an empty body, not with the value as
    JSON.  And a truthy value under [@HttpStatus(1000)] is not the only
    reply: the server refuses the status, and the handler logs and replies
    500. *)
Lemma returned_value_not_always_serialized :
  (Forall
     (fun name =>
        written
          (w_res
             (handler
                (bound Probe.loaded Probe.ProbeController (Probe.get_route name))
                (App.request "get" ("/probe/" +:+ name))
                (App.arriving Probe.loaded))) =
        [(204, BodyEmpty)])
     ["zero"; "empty"; "no"; "nothing"]%string
   /\ class_new Probe.ProbeController "zero" = Some (Probe.returning (JNum 0))
   /\ class_new Probe.ProbeController "empty" = Some (Probe.returning (JStr ""))
   /\ class_new Probe.ProbeController "no" = Some (Probe.returning (JBool false))
   /\ class_new Probe.ProbeController "nothing" = Some (Probe.returning JNull))
  /\
  (let md := Probe.create_only [Decorators.HttpStatus 1000 2 "create"] in
   let handled :=
     handler (bound md Probe.ProbeController Probe.create_route)
       (App.request "post" "/probe/") (App.arriving md) in
   written (w_res handled) =
     [(1000, BodyJson (JObj [("ok"%string, JBool true)]));
      (500, BodyJson (JObj [("error"%string, JStr "Internal Server Error");
                            ("status"%string, JNum 500)]))]
   /\ exists args, w_console handled = [ConsoleError args]).
Proof.
  split; [split; [|repeat split; reflexivity]|].
  - repeat constructor; vm_compute; reflexivity.
  - vm_compute. split; [reflexivity|by eexists].
Qed.





(* ===================================================================== *)
(** ** Status-code resolution *)
(* ===================================================================== *)

Lemma resolveStatusCode_bound (md : Metadata) (controller : ControllerClass)
    (route : RouteDefinition) :
  resolveStatusCode md (h_statusCodes (bound md controller route)) route =
  or_number (statusOverride md controller (methodName route))
    (spec_statusCode None (requestMethod route)).
Proof.
  unfold resolveStatusCode, statusOverride, bound, spec_statusCode. cbn.
  by destruct (md_status md !! class_id controller).
Qed.

Lemma or_number_nonzero (x : option Z) (m : EHttpMethod) :
  x <> Some 0 -> or_number x (spec_statusCode None m) = spec_statusCode x m.
Proof.
  destruct x as [n|]; [|done]. cbn.
  destruct (Z.eqb_spec n 0) as [->|]; [by intros []|done].
Qed.

(** C1, as amended.  For a handler bound by [register], when the controller
    method completes without raising, returns a truthy value and has not
    finished the response itself, and the status code the specification
    resolves (the declared override for the handler name when there is one,
    otherwise 201 for a POST route and 200 for any other) is one the server
    takes (100 to 999), that code is the status code written, for every
    HTTP method.  What happens for an override outside 100 to 999 is not
    part of the statement. *)
Theorem status_code_resolution (controller : ControllerClass)
    (route : RouteDefinition) (req : Request) (w : World) (res1 : Response)
    (v : JsValue) :
  invoke (class_new controller) (methodName route) req (w_res w) =
    (Returned v, res1) ->
  finished res1 = false ->
  truthy v = true ->
  100 <= spec_statusCode
           (statusOverride (w_metadata w) controller (methodName route))
           (requestMethod route) <= 999 ->
  written (w_res (handler (bound (w_metadata w) controller route) req w)) =
    written res1 ++
    [(spec_statusCode
        (statusOverride (w_metadata w) controller (methodName route))
        (requestMethod route),
      BodyJson v)].
Proof.
  intros Hcall Hfin Hv [Hlo Hhi].
  assert (Hcode :
            resolveStatusCode (w_metadata w)
              (h_statusCodes (bound (w_metadata w) controller route)) route =
            spec_statusCode
              (statusOverride (w_metadata w) controller (methodName route))
              (requestMethod route)).
  { rewrite resolveStatusCode_bound. apply or_number_nonzero.
    intros Hzero. rewrite Hzero in Hlo. cbn in Hlo. lia. }
  unfold handler.
  rewrite (handler_run_truthy_accepted
             (bound (w_metadata w) controller route) req w res1 v Hcall Hv).
  - change (h_route (bound (w_metadata w) controller route)) with route.
    by rewrite Hcode.
  - change (h_route (bound (w_metadata w) controller route)) with route.
    rewrite Hcode. unfold accepts. cbn. rewrite Hfin. cbn.
    apply andb_true_intro. split; by apply Z.leb_le.
Qed.

Lemma status_code_resolution_witness :
  statusOverride (Probe.create_only [Decorators.HttpStatus 207 2 "create"])
    Probe.ProbeController "create" = Some 207
  /\ written
       (w_res
          (handler
             (bound (Probe.create_only [Decorators.HttpStatus 207 2 "create"])
                Probe.ProbeController Probe.create_route)
             (App.request "post" "/probe/")
             (App.arriving
                (Probe.create_only [Decorators.HttpStatus 207 2 "create"])))) =
     [(207, BodyJson (JObj [("ok"%string, JBool true)]))].
Proof.
  split; [vm_compute; reflexivity|].
  etrans.
  - apply (status_code_resolution Probe.ProbeController Probe.create_route
             (App.request "post" "/probe/")
             (App.arriving
                (Probe.create_only [Decorators.HttpStatus 207 2 "create"]))
             fresh_response (JObj [("ok"%string, JBool true)])
             eq_refl eq_refl eq_refl).
    vm_compute. split; discriminate.
  - vm_compute; reflexivity.
Defined.

(** C1 as stated fails.  A GET route whose method returns the value [0] is
    answered with 204, not 200.  An override of 0 declared on a POST route
    is not the status written, 201 is.  And an override of 1000 is written
    in a reply the server refuses, after which the handler logs and replies
    500. *)
Lemma status_code_resolution_as_stated_fails :
  (class_new Probe.ProbeController "zero" = Some (Probe.returning (JNum 0))
   /\ statusOverride Probe.loaded Probe.ProbeController "zero" = None
   /\ written
        (w_res
           (handler
              (bound Probe.loaded Probe.ProbeController (Probe.get_route "zero"))
              (App.request "get" "/probe/zero") (App.arriving Probe.loaded))) =
      [(204, BodyEmpty)])
  /\
  (statusOverride Probe.loaded Probe.ProbeController "create" = Some 0
   /\ spec_statusCode
        (statusOverride Probe.loaded Probe.ProbeController "create") POST = 0
   /\ written
        (w_res
           (handler
              (bound Probe.loaded Probe.ProbeController Probe.create_route)
              (App.request "post" "/probe/") (App.arriving Probe.loaded))) =
      [(201, BodyJson (JObj [("ok"%string, JBool true)]))])
  /\
  (let md := Probe.create_only [Decorators.HttpStatus 1000 2 "create"] in
   statusOverride md Probe.ProbeController "create" = Some 1000
   /\ written
        (w_res
           (handler (bound md Probe.ProbeController Probe.create_route)
              (App.request "post" "/probe/") (App.arriving md))) =
      [(1000, BodyJson (JObj [("ok"%string, JBool true)]));
       (500, BodyJson (JObj [("error"%string, JStr "Internal Server Error");
                             ("status"%string, JNum 500)]))]).
Proof. repeat split; vm_compute; reflexivity. Qed.

(* ===================================================================== *)
(** ** Registration *)
(* ===================================================================== *)

(** The layers [register] adds for the routes of a class. *)
Lemma foldl_bind (md : Metadata) (controller : ControllerClass)
    (prefix : option string) (routes : list RouteDefinition)
    (router : list Layer) :
  foldl
    (bind (class_new controller) controller prefix
       (md_status md !! class_id controller))
    router routes =
  router ++
  map (fun route =>
         LRoute (requestMethod route) (add_string prefix (path route))
           (bound md controller route))
    routes.
Proof.
  revert router. induction routes as [|route routes IH]; intros router; cbn.
  - by rewrite app_nil_r.
  - rewrite IH. unfold bind at 1. by rewrite <- app_assoc.
Qed.

Lemma register_layers (md : Metadata) (controller : ControllerClass)
    (router : list Layer) (routes : list RouteDefinition) :
  md_routes md !! class_id controller = Some routes ->
  register md controller router =
  inr (router ++
       map (fun route =>
              LRoute (requestMethod route)
                (add_string (md_prefix md !! class_id controller) (path route))
                (bound md controller route))
         routes).
Proof. intros Hroutes. unfold register. by rewrite Hroutes, foldl_bind. Qed.

(** C2.  [register] on a class that was never declared through a decorator
    ends with an error, whatever the router holds: the call is aborted and
    yields no router. *)
Theorem register_undeclared_fails (md : Metadata)
    (controller : ControllerClass) (router : list Layer) :
  no_route_table md controller ->
  register md controller router = inl TypeError_routes_undefined.
Proof. intros (_ & Hroutes & _). unfold register. by rewrite Hroutes. Qed.

Lemma register_undeclared_fails_witness :
  register no_metadata App.DefaultController ExpressRouter =
  inl TypeError_routes_undefined.
Proof.
  apply register_undeclared_fails.
  repeat split; vm_compute; reflexivity.
Defined.

(** C8.  For a class with prefix [prefix], [register] binds the handler of
    every route entry, in declaration order and under the method of the
    entry, at the path [prefix] followed by the path of the entry, character
    for character. *)
Theorem bound_path_is_concatenation (md : Metadata)
    (controller : ControllerClass) (router : list Layer) (prefix : string)
    (routes : list RouteDefinition) :
  md_prefix md !! class_id controller = Some prefix ->
  md_routes md !! class_id controller = Some routes ->
  register md controller router =
  inr (router ++
       map (fun route =>
              LRoute (requestMethod route) (prefix +:+ path route)
                (bound md controller route))
         routes).
Proof.
  intros Hprefix Hroutes.
  by rewrite (register_layers _ _ _ _ Hroutes), Hprefix.
Qed.

Lemma bound_path_is_concatenation_witness :
  exists router,
    register App.loaded App.DefaultController ExpressRouter = inr router
    /\ bindings router =
       [(GET, "/api/"); (GET, "/api/:id"); (POST, "/api/"); (PUT, "/api/");
        (DELETE, "/api/"); (PATCH, "/api/")]%string.
Proof.
  eexists. split.
  - apply (bound_path_is_concatenation App.loaded App.DefaultController
             ExpressRouter "/api").
    + vm_compute; reflexivity.
    + vm_compute; reflexivity.
  - vm_compute; reflexivity.
Defined.

(* ===================================================================== *)
(** ** The not-found handler *)
(* ===================================================================== *)

Section NotFound.

Variable route_matches : EHttpMethod -> string -> Request -> bool.

(** Every handler a program adds with [use] is the not-found handler. *)
Lemma assembled_use (router : list Layer) :
  assembled router ->
  forall f, LUse f ∈ router -> f = notFoundHandler.
Proof.
  induction 1 as [|md controller router router' _ IH Hreg|router _ IH];
    intros f Hin.
  - by apply elem_of_nil in Hin.
  - unfold register in Hreg.
    destruct (md_routes md !! class_id controller) as [routes|]; [|done].
    injection Hreg as <-. rewrite foldl_bind in Hin.
    apply elem_of_app in Hin as [Hin|Hin]; [by apply IH|].
    apply list_elem_of_fmap in Hin as (route & Heq & _). discriminate.
  - unfold middleware in Hin.
    apply elem_of_app in Hin as [Hin|Hin]; [by apply IH|].
    apply list_elem_of_singleton in Hin. by injection Hin.
Qed.

Lemma dispatch_falls_to_use (router : list Layer) (req : Request) (w : World) :
  (forall f, LUse f ∈ router -> f = notFoundHandler) ->
  no_route_matches route_matches router req = true ->
  dispatch route_matches (router ++ [LUse notFoundHandler]) req w =
  Some (notFoundHandler req w).
Proof.
  induction router as [|[method path h|f] router IH]; intros Huse Hno; cbn.
  - done.
  - cbn in Hno. apply andb_prop in Hno as [Hhead Hrest].
    apply negb_true_iff in Hhead. rewrite Hhead.
    apply IH; [|done]. intros f Hin. apply Huse. by right.
  - f_equal. rewrite (Huse f); [done|by left].
Qed.

(** C9.  [middleware()] returns the router with the catch-all handler added
    last, so a request that matches no registered route is answered with
    status 404 and the JSON body [{"error": "Not Found", "status": 404}]. *)
Theorem not_found_reply (router : list Layer) (req : Request) (w : World) :
  assembled router ->
  no_route_matches route_matches router req = true ->
  middleware router = router ++ [LUse notFoundHandler]
  /\ exists w',
       dispatch route_matches (middleware router) req w = Some w'
       /\ written (w_res w') =
          written (w_res w) ++
          [(404, BodyJson (JObj [("error"%string, JStr "Not Found");
                                 ("status"%string, JNum 404)]))]
       /\ w_console w' = w_console w.
Proof.
  intros Hasm Hno. split; [done|].
  exists (notFoundHandler req w). split; [|done].
  apply dispatch_falls_to_use; [by apply assembled_use|done].
Qed.

End NotFound.

Lemma not_found_reply_witness :
  exists router w',
    App.bootstrap = inr (middleware router)
    /\ dispatch App.exact_match (middleware router)
         (App.request "get" "/nowhere") (App.arriving App.loaded) = Some w'
    /\ written (w_res w') =
       [(404, BodyJson (JObj [("error"%string, JStr "Not Found");
                              ("status"%string, JNum 404)]))].
Proof.
  destruct (register App.loaded App.DefaultController ExpressRouter)
    as [e|router] eqn:Hreg; [vm_compute in Hreg; discriminate|].
  assert (Hasm : assembled router)
    by (eapply assembled_register; [apply assembled_new|exact Hreg]).
  assert (Hno : no_route_matches App.exact_match router
                  (App.request "get" "/nowhere") = true)
    by (vm_compute in Hreg; injection Hreg as <-; vm_compute; reflexivity).
  destruct (not_found_reply App.exact_match router
              (App.request "get" "/nowhere") (App.arriving App.loaded)
              Hasm Hno) as (_ & w' & Hdisp & Hres & _).
  exists router, w'. split; [|split; [exact Hdisp|exact Hres]].
  unfold App.bootstrap. by rewrite Hreg.
Defined.

(* ===================================================================== *)
(** ** Declarations made after registration *)
(* ===================================================================== *)

Lemma HttpStatus_prefix (code : Z) (target : positive) (key : string)
    (md : Metadata) :
  md_prefix (Decorators.HttpStatus code target key md) = md_prefix md.
Proof.
  unfold Decorators.HttpStatus.
  destruct (md_status md !! target) as [ref|] eqn:Hstatus.
  - by rewrite Hstatus.
  - by destruct (md_status (define_new_Map target md) !! target).
Qed.

(** C10, as amended.  When the class had no status-code [Map] at the time it
    was registered, an [@HttpStatus] applied afterwards, to any class and
    handler name, changes neither the replies nor the diagnostics of the
    handlers already bound for the class. *)
Theorem late_HttpStatus_without_Map (md : Metadata)
    (controller : ControllerClass) (route : RouteDefinition)
    (code : Z) (target : positive) (key : string)
    (req : Request) (w : World) :
  md_status md !! class_id controller = None ->
  w_res
    (handler (bound md controller route) req
       (with_metadata w (Decorators.HttpStatus code target key (w_metadata w)))) =
  w_res (handler (bound md controller route) req w)
  /\
  w_console
    (handler (bound md controller route) req
       (with_metadata w (Decorators.HttpStatus code target key (w_metadata w)))) =
  w_console (handler (bound md controller route) req w).
Proof.
  intros Hnone.
  unfold handler, handler_run, try_block, catch_block, bound. cbn.
  rewrite Hnone. unfold resolveStatusCode.
  destruct (invoke (class_new controller) (methodName route) req (w_res w))
    as [[v|[e|detail]|] res1]; cbn; [|done| |done].
  - unfold sendNoData, reply_empty, reply_json. cbn.
    destruct (truthy v), (finished res1); cbn; try done.
    + destruct (accepts _); [done|]. cbn.
      unfold handleUnknownException, reply_json, diagnosticRoute. cbn.
      by rewrite HttpStatus_prefix.
    + destruct (accepts _); [done|]. cbn.
      unfold handleUnknownException, reply_json, diagnosticRoute. cbn.
      by rewrite HttpStatus_prefix.
    + unfold diagnosticRoute. rewrite HttpStatus_prefix.
      destruct (accepts _); cbn; [done|].
      unfold handleUnknownException, reply_json, diagnosticRoute. cbn.
      by rewrite HttpStatus_prefix.
  - unfold handleUnknownException, reply_json, diagnosticRoute. cbn.
    by rewrite HttpStatus_prefix.
Qed.

Lemma late_HttpStatus_without_Map_witness :
  md_status (Probe.create_only []) !! class_id Probe.ProbeController = None
  /\ written
       (w_res
          (handler
             (bound (Probe.create_only []) Probe.ProbeController
                Probe.create_route)
             (App.request "post" "/probe/")
             (with_metadata (App.arriving (Probe.create_only []))
                (Decorators.HttpStatus 207 2 "create" (Probe.create_only []))))) =
     [(201, BodyJson (JObj [("ok"%string, JBool true)]))].
Proof.
  split; [vm_compute; reflexivity|].
  destruct (late_HttpStatus_without_Map (Probe.create_only [])
              Probe.ProbeController Probe.create_route 207 2 "create"
              (App.request "post" "/probe/")
              (App.arriving (Probe.create_only []))) as [Hres _].
  - vm_compute; reflexivity.
  - cbn [w_metadata App.arriving] in Hres. rewrite Hres.
    vm_compute; reflexivity.
Defined.

(** C10 as stated fails: [DefaultController] is registered with
    [@HttpStatus(300)] on [indexAction]; an [@HttpStatus(207)] applied to
    the same method after [register] changes the status the handler already
    bound replies with, from 300 to 207. *)
Lemma late_HttpStatus_changes_bound_handler :
  exists router,
    register App.loaded App.DefaultController ExpressRouter = inr router
    /\ option_map (fun w => written (w_res w))
         (dispatch App.exact_match router (App.request "get" "/api/")
            (App.arriving App.loaded)) =
       Some [(300, BodyJson (JObj [("hello"%string, JStr "hi!")]))]
    /\ option_map (fun w => written (w_res w))
         (dispatch App.exact_match router (App.request "get" "/api/")
            (App.arriving
               (Decorators.HttpStatus 207 (class_id App.DefaultController)
                  "indexAction" App.loaded))) =
       Some [(207, BodyJson (JObj [("hello"%string, JStr "hi!")]))].
Proof.
  eexists. split; [reflexivity|]. split; vm_compute; reflexivity.
Qed.

(* ===================================================================== *)
(** ** What the decorators leave in the store *)
(* ===================================================================== *)

Lemma declare_all_snoc (ds : list Declaration) (d : Declaration)
    (md : Metadata) :
  declare_all (ds ++ [d]) md = declare d (declare_all ds md).
Proof. unfold declare_all. by rewrite foldl_app. Qed.

Lemma Controller_routes (prefix : string) (target : positive) (md : Metadata) :
  md_routes (Decorators.Controller prefix target md) =
  match md_routes md !! target with
  | None => <[target := []]> (md_routes md)
  | Some _ => md_routes md
  end.
Proof.
  unfold Decorators.Controller. cbn.
  by destruct (md_routes md !! target).
Qed.

Lemma defineRouteDecorator_routes (method : EHttpMethod) (path : string)
    (target : positive) (key : string) (md : Metadata) :
  md_routes (Decorators.defineRouteDecorator method path target key md) =
  <[target := default [] (md_routes md !! target) ++
              [{| requestMethod := method; path := path;
                  methodName := key |}]]> (md_routes md).
Proof.
  unfold Decorators.defineRouteDecorator.
  destruct (md_routes md !! target) as [routes|] eqn:Hroutes.
  - by rewrite Hroutes.
  - cbn. rewrite lookup_insert_eq. cbn. by rewrite insert_insert_eq.
Qed.

Lemma HttpStatus_routes (code : Z) (target : positive) (key : string)
    (md : Metadata) :
  md_routes (Decorators.HttpStatus code target key md) = md_routes md.
Proof.
  unfold Decorators.HttpStatus.
  destruct (md_status md !! target) as [ref|] eqn:Hstatus.
  - by rewrite Hstatus.
  - by destruct (md_status (define_new_Map target md) !! target).
Qed.

Lemma routes_declared_none (target : positive) (ds : list Declaration) :
  existsb (defines_routes target) ds = false -> routes_declared target ds = [].
Proof.
  induction ds as [|d ds IH]; [done|]. cbn.
  intros [Hd Hds]%orb_false_elim. fold (routes_declared target ds).
  rewrite (IH Hds).
  destruct d as [prefix t|method path t key|code t key]; cbn in *; try done.
  apply bool_decide_eq_false in Hd. by rewrite decide_False.
Qed.

(** The ['routes'] of a class after a run of decorators on any store. *)
Lemma routes_declare_all (ds : list Declaration) (md : Metadata)
    (target : positive) :
  md_routes (declare_all ds md) !! target =
  match md_routes md !! target with
  | Some routes => Some (routes ++ routes_declared target ds)
  | None =>
      if existsb (defines_routes target) ds
      then Some (routes_declared target ds) else None
  end.
Proof.
  induction ds as [|d ds IH] using rev_ind.
  { cbn. destruct (md_routes md !! target); [|done]. by rewrite app_nil_r. }
  rewrite declare_all_snoc, existsb_app. unfold routes_declared.
  rewrite omap_app. fold (routes_declared target ds). cbn.
  rewrite orb_false_r.
  destruct d as [prefix t|method path t key|code t key]; cbn.
  - rewrite Controller_routes, app_nil_r.
    destruct (decide (t = target)) as [->|Hne].
    + rewrite bool_decide_eq_true_2, orb_true_r by done.
      destruct (md_routes (declare_all ds md) !! target) as [routes|] eqn:Hds.
      * rewrite Hds, IH.
        destruct (md_routes md !! target); [done|].
        by destruct (existsb (defines_routes target) ds).
      * rewrite lookup_insert_eq.
        destruct (md_routes md !! target); [done|].
        destruct (existsb (defines_routes target) ds) eqn:Hex; [done|].
        by rewrite routes_declared_none.
    + rewrite bool_decide_eq_false_2, orb_false_r by done.
      destruct (md_routes (declare_all ds md) !! t); [done|].
      by rewrite lookup_insert_ne.
  - rewrite defineRouteDecorator_routes.
    destruct (decide (t = target)) as [->|Hne].
    + rewrite bool_decide_eq_true_2, orb_true_r by done.
      rewrite lookup_insert_eq, IH.
      destruct (md_routes md !! target); cbn; [by rewrite app_assoc|].
      destruct (existsb (defines_routes target) ds) eqn:Hex; [done|].
      by rewrite routes_declared_none.
    + rewrite bool_decide_eq_false_2, orb_false_r, app_nil_r by done.
      by rewrite lookup_insert_ne.
  - by rewrite HttpStatus_routes, orb_false_r, app_nil_r.
Qed.

(** X1.  Take a class for which the lookups find no ['routes'], and any
    run of decorators all applied to that class.  Afterwards its ['routes']
    are exactly the entries its method decorators declared, in the order
    they ran; the array exists as soon as one method decorator or the class
    decorator ran, and the class decorator never empties it. *)
Theorem routes_after_decorators (ds : list Declaration) (md : Metadata)
    (target : positive) :
  all_on target ds = true ->
  md_routes md !! target = None ->
  md_routes (declare_all ds md) !! target =
  if existsb (defines_routes target) ds
  then Some (routes_declared target ds) else None.
Proof. intros _ Hnone. by rewrite routes_declare_all, Hnone. Qed.

Lemma routes_after_decorators_witness :
  md_routes (declare_all DefaultController_declared no_metadata) !! 1%positive =
  Some
    [{| requestMethod := GET; path := "/"; methodName := "indexAction" |};
     {| requestMethod := GET; path := "/:id"; methodName := "idAction" |};
     {| requestMethod := POST; path := "/"; methodName := "postAction" |};
     {| requestMethod := PUT; path := "/"; methodName := "putAction" |};
     {| requestMethod := DELETE; path := "/"; methodName := "deleteAction" |};
     {| requestMethod := PATCH; path := "/"; methodName := "patchAction" |}].
Proof.
  etrans.
  - apply (routes_after_decorators DefaultController_declared no_metadata 1);
      reflexivity.
  - reflexivity.
Defined.

Lemma Controller_prefix (prefix : string) (target : positive) (md : Metadata) :
  md_prefix (Decorators.Controller prefix target md) =
  <[target := prefix]> (md_prefix md).
Proof.
  unfold Decorators.Controller. cbn.
  by destruct (md_routes md !! target).
Qed.

Lemma defineRouteDecorator_prefix (method : EHttpMethod) (path : string)
    (target : positive) (key : string) (md : Metadata) :
  md_prefix (Decorators.defineRouteDecorator method path target key md) =
  md_prefix md.
Proof.
  unfold Decorators.defineRouteDecorator.
  destruct (md_routes md !! target) as [routes|] eqn:Hroutes.
  - by rewrite Hroutes.
  - cbn. by rewrite lookup_insert_eq.
Qed.

(** The ['prefix'] of a class after a run of decorators on any store. *)
Lemma prefix_declare_all (ds : list Declaration) (md : Metadata)
    (target : positive) :
  md_prefix (declare_all ds md) !! target =
  match last (prefixes_declared target ds) with
  | Some prefix => Some prefix
  | None => md_prefix md !! target
  end.
Proof.
  induction ds as [|d ds IH] using rev_ind; [done|].
  rewrite declare_all_snoc. unfold prefixes_declared.
  rewrite omap_app. fold (prefixes_declared target ds).
  destruct d as [prefix t|method path t key|code t key]; cbn.
  - rewrite Controller_prefix.
    destruct (decide (t = target)) as [->|Hne].
    + by rewrite lookup_insert_eq, last_snoc.
    + by rewrite lookup_insert_ne, app_nil_r.
  - by rewrite defineRouteDecorator_prefix, app_nil_r.
  - by rewrite HttpStatus_prefix, app_nil_r.
Qed.

(** X2.  After any run of decorators all applied to one class, the
    ['prefix'] of the class is the one its class decorator gave last; when
    no class decorator ran it is what it was before, whatever method
    decorators did. *)
Theorem prefix_after_decorators (ds : list Declaration) (md : Metadata)
    (target : positive) :
  all_on target ds = true ->
  md_prefix (declare_all ds md) !! target =
  match last (prefixes_declared target ds) with
  | Some prefix => Some prefix
  | None => md_prefix md !! target
  end.
Proof. intros _. apply prefix_declare_all. Qed.

Lemma prefix_after_decorators_witness :
  md_prefix
    (declare_all
       (DefaultController_declared ++ [DeclarePrefix "/v2" 1]) no_metadata)
    !! 1%positive = Some "/v2"%string
  /\ md_prefix
       (declare_all [DeclareRoute GET "/x" 1 "indexAction"] no_metadata)
       !! 1%positive = None.
Proof.
  split.
  - etrans.
    + apply (prefix_after_decorators
               (DefaultController_declared ++ [DeclarePrefix "/v2" 1])
               no_metadata 1). reflexivity.
    + reflexivity.
  - etrans.
    + apply (prefix_after_decorators
               [DeclareRoute GET "/x" 1 "indexAction"] no_metadata 1).
      reflexivity.
    + reflexivity.
Defined.

Lemma Controller_status (prefix : string) (target : positive) (md : Metadata) :
  md_status (Decorators.Controller prefix target md) = md_status md
  /\ md_maps (Decorators.Controller prefix target md) = md_maps md.
Proof.
  unfold Decorators.Controller. cbn.
  by destruct (md_routes md !! target).
Qed.

Lemma defineRouteDecorator_status (method : EHttpMethod) (path : string)
    (target : positive) (key : string) (md : Metadata) :
  md_status (Decorators.defineRouteDecorator method path target key md) =
    md_status md
  /\ md_maps (Decorators.defineRouteDecorator method path target key md) =
     md_maps md.
Proof.
  unfold Decorators.defineRouteDecorator.
  destruct (md_routes md !! target) as [routes|] eqn:Hroutes.
  - by rewrite Hroutes.
  - cbn. by rewrite lookup_insert_eq.
Qed.

Lemma HttpStatus_known (code : Z) (target : positive) (key : string)
    (md : Metadata) (ref : positive) :
  md_status md !! target = Some ref ->
  Decorators.HttpStatus code target key md = Map_set ref key code md.
Proof. intros Hstatus. unfold Decorators.HttpStatus. by rewrite !Hstatus. Qed.

Lemma HttpStatus_new (code : Z) (target : positive) (key : string)
    (md : Metadata) :
  md_status md !! target = None ->
  Decorators.HttpStatus code target key md =
  Map_set (fresh (dom (md_maps md))) key code (define_new_Map target md).
Proof.
  intros Hstatus. unfold Decorators.HttpStatus. rewrite Hstatus.
  cbn. by rewrite lookup_insert_eq.
Qed.

Lemma live_HttpStatus (code : Z) (target : positive) (key : string)
    (md : Metadata) :
  live md -> live (Decorators.HttpStatus code target key md).
Proof.
  intros Hlive.
  destruct (md_status md !! target) as [ref|] eqn:Hstatus.
  - rewrite (HttpStatus_known _ _ _ _ _ Hstatus). intros t r Ht. cbn in *.
    rewrite lookup_alter. case_decide as Heq.
    + subst r. apply fmap_is_Some. by eapply Hlive.
    + by eapply Hlive.
  - rewrite (HttpStatus_new _ _ _ _ Hstatus). intros t r Ht. cbn in *.
    rewrite lookup_alter, lookup_insert_eq.
    case_decide as Heq; [by eexists|].
    rewrite lookup_insert_ne by done.
    apply lookup_insert_Some in Ht as [[_ Hr]|[_ Ht]]; [done|].
    by eapply Hlive.
Qed.

Lemma live_declare (d : Declaration) (md : Metadata) :
  live md -> live (declare d md).
Proof.
  destruct d as [prefix t|method path t key|code t key]; cbn.
  - unfold live. by destruct (Controller_status prefix t md) as [-> ->].
  - unfold live.
    by destruct (defineRouteDecorator_status method path t key md) as [-> ->].
  - apply live_HttpStatus.
Qed.

Lemma live_no_metadata : live no_metadata.
Proof. intros t r. cbn. by rewrite lookup_empty. Qed.

Lemma live_declare_all (ds : list Declaration) (md : Metadata) :
  live md -> live (declare_all ds md).
Proof.
  intros Hlive. induction ds as [|d ds IH] using rev_ind; [done|].
  rewrite declare_all_snoc. by apply live_declare.
Qed.

(** The override of a handler name of a class, read back after one
    [@HttpStatus] on a method of that class. *)
Lemma statusOverride_HttpStatus (code : Z) (key : string) (md : Metadata)
    (controller : ControllerClass) (handlerName : string) :
  live md ->
  statusOverride (Decorators.HttpStatus code (class_id controller) key md)
    controller handlerName =
  if decide (key = handlerName) then Some code
  else statusOverride md controller handlerName.
Proof.
  intros Hlive. unfold statusOverride, Map_get.
  destruct (md_status md !! class_id controller) as [ref|] eqn:Hstatus.
  - rewrite (HttpStatus_known _ _ _ _ _ Hstatus). cbn. rewrite Hstatus.
    rewrite lookup_alter_eq.
    destruct (Hlive _ _ Hstatus) as [m Hm]. rewrite Hm. cbn.
    by rewrite lookup_insert.
  - rewrite (HttpStatus_new _ _ _ _ Hstatus). cbn.
    rewrite lookup_insert_eq, lookup_alter_eq, lookup_insert_eq. cbn.
    rewrite lookup_insert, lookup_empty. by case_decide.
Qed.

(** X4.  [@HttpStatus(code)] on a method of a class makes [code] the
    override of that handler name for the class, replacing an earlier one,
    and leaves the override of every other handler name of the class as it
    was. *)
Theorem HttpStatus_sets_override (code : Z) (key : string) (md : Metadata)
    (controller : ControllerClass) :
  live md ->
  statusOverride (Decorators.HttpStatus code (class_id controller) key md)
    controller key = Some code
  /\ (forall other,
        other <> key ->
        statusOverride
          (Decorators.HttpStatus code (class_id controller) key md)
          controller other =
        statusOverride md controller other).
Proof.
  intros Hlive. split; intros *;
    rewrite statusOverride_HttpStatus by done.
  - by rewrite decide_True.
  - intros Hne. by rewrite decide_False.
Qed.

Lemma HttpStatus_sets_override_witness :
  let md :=
    declare_all
      [DeclareStatus 300 1 "indexAction"; DeclareStatus 200 1 "idAction";
       DeclarePrefix "/api" 1] no_metadata in
  statusOverride
    (Decorators.HttpStatus 207 (class_id App.DefaultController)
       "indexAction" md)
    App.DefaultController "indexAction" = Some 207
  /\ statusOverride
       (Decorators.HttpStatus 207 (class_id App.DefaultController)
          "indexAction" md)
       App.DefaultController "idAction" = Some 200.
Proof.
  intros md.
  destruct (HttpStatus_sets_override 207 "indexAction" md
              App.DefaultController
              (live_declare_all _ _ live_no_metadata)) as (Hset & Hkey).
  split; [exact Hset|].
  etrans; [apply Hkey; discriminate|]. vm_compute. reflexivity.
Defined.

Lemma statusOverride_declare_other (d : Declaration) (md : Metadata)
    (controller : ControllerClass) (handlerName : string) :
  (forall code target key, d <> DeclareStatus code target key) ->
  statusOverride (declare d md) controller handlerName =
  statusOverride md controller handlerName.
Proof.
  unfold statusOverride, Map_get.
  destruct d as [prefix t|method path t key|code t key]; cbn; intros Hd.
  - by destruct (Controller_status prefix t md) as [-> ->].
  - by destruct (defineRouteDecorator_status method path t key md) as [-> ->].
  - by destruct (Hd code t key).
Qed.

Lemma all_on_snoc (target : positive) (ds : list Declaration)
    (d : Declaration) :
  all_on target (ds ++ [d]) = true ->
  all_on target ds = true /\ declared_on d = target.
Proof.
  unfold all_on. rewrite forallb_app. cbn. rewrite andb_true_r.
  intros [Hds Hd]%andb_prop. split; [done|]. by apply bool_decide_eq_true in Hd.
Qed.

(** The override of a handler name after a run of decorators on the class. *)
Lemma override_declare_all (ds : list Declaration) (md : Metadata)
    (controller : ControllerClass) (handlerName : string) :
  all_on (class_id controller) ds = true ->
  live md ->
  statusOverride (declare_all ds md) controller handlerName =
  match last (codes_declared (class_id controller) handlerName ds) with
  | Some code => Some code
  | None => statusOverride md controller handlerName
  end.
Proof.
  intros Hall Hlive. induction ds as [|d ds IH] using rev_ind; [done|].
  apply all_on_snoc in Hall as [Hall Hd]. specialize (IH Hall).
  rewrite declare_all_snoc. unfold codes_declared.
  rewrite omap_app. fold (codes_declared (class_id controller) handlerName ds).
  destruct d as [prefix t|method path t key|code t key].
  - rewrite statusOverride_declare_other by done. cbn. by rewrite app_nil_r.
  - rewrite statusOverride_declare_other by done. cbn. by rewrite app_nil_r.
  - cbn in Hd. subst t. cbn [declare].
    rewrite statusOverride_HttpStatus by by apply live_declare_all.
    cbn. destruct (decide (key = handlerName)) as [->|Hne].
    + rewrite decide_True by done. by rewrite last_snoc.
    + rewrite decide_False by (by intros [_ ?]). by rewrite app_nil_r.
Qed.

(** X5.  After any run of decorators all applied to one class, on a store
    whose references are live, the status override of a handler name of the
    class is the code the last [@HttpStatus] for that name gave; when none
    ran for the name it is what it was before.  Route and class decorators
    do not affect it. *)
Theorem override_after_decorators (ds : list Declaration) (md : Metadata)
    (controller : ControllerClass) (handlerName : string) :
  all_on (class_id controller) ds = true ->
  live md ->
  statusOverride (declare_all ds md) controller handlerName =
  match last (codes_declared (class_id controller) handlerName ds) with
  | Some code => Some code
  | None => statusOverride md controller handlerName
  end.
Proof. apply override_declare_all. Qed.

Lemma override_after_decorators_witness :
  statusOverride
    (declare_all
       (DefaultController_declared ++ [DeclareStatus 207 1 "indexAction"])
       no_metadata)
    App.DefaultController "indexAction" = Some 207
  /\ statusOverride (declare_all DefaultController_declared no_metadata)
       App.DefaultController "postAction" = None.
Proof.
  split.
  - etrans.
    + apply (override_after_decorators
               (DefaultController_declared ++ [DeclareStatus 207 1 "indexAction"])
               no_metadata App.DefaultController "indexAction");
        [reflexivity|apply live_no_metadata].
    + reflexivity.
  - etrans.
    + apply (override_after_decorators DefaultController_declared
               no_metadata App.DefaultController "postAction");
        [reflexivity|apply live_no_metadata].
    + reflexivity.
Defined.

(* ===================================================================== *)
(** ** Decorators and [register] together *)
(* ===================================================================== *)

(** X6.  Take a class for which the lookups find no metadata, apply any
    run of decorators to it, and register it.  [register] fails exactly when
    neither the class decorator nor a method decorator defining a route ran,
    [@HttpStatus] alone not being enough.  Otherwise it adds, after the
    layers already there, one layer for each declared route, in declaration
    order, at the last prefix given followed by the path of the route; with
    no class decorator the prefix is [undefined] and prints as such in the
    path. *)
Theorem register_after_decorators (ds : list Declaration) (md : Metadata)
    (controller : ControllerClass) (router : list Layer) :
  all_on (class_id controller) ds = true ->
  no_route_table md controller ->
  register (declare_all ds md) controller router =
  if existsb (defines_routes (class_id controller)) ds then
    inr (router ++
         map (fun route =>
                LRoute (requestMethod route)
                  (add_string
                     (last (prefixes_declared (class_id controller) ds))
                     (path route))
                  (bound (declare_all ds md) controller route))
           (routes_declared (class_id controller) ds))
  else inl TypeError_routes_undefined.
Proof.
  intros _ (Hprefix & Hnone & _).
  pose proof (routes_declare_all ds md (class_id controller)) as Hroutes.
  rewrite Hnone in Hroutes.
  destruct (existsb (defines_routes (class_id controller)) ds).
  - rewrite (register_layers _ _ _ _ Hroutes), prefix_declare_all, Hprefix.
    by destruct (last (prefixes_declared (class_id controller) ds)).
  - unfold register. by rewrite Hroutes.
Qed.

Lemma register_after_decorators_witness :
  (exists router,
     register (declare_all DefaultController_declared no_metadata)
       App.DefaultController ExpressRouter = inr router
     /\ bindings router =
        [(GET, "/api/"); (GET, "/api/:id"); (POST, "/api/"); (PUT, "/api/");
         (DELETE, "/api/"); (PATCH, "/api/")]%string)
  /\ register (declare_all [DeclareStatus 300 1 "indexAction"] no_metadata)
       App.DefaultController ExpressRouter = inl TypeError_routes_undefined.
Proof.
  split.
  - eexists. split.
    + apply (register_after_decorators DefaultController_declared no_metadata
               App.DefaultController ExpressRouter); [reflexivity|].
      repeat split; reflexivity.
    + vm_compute; reflexivity.
  - apply (register_after_decorators [DeclareStatus 300 1 "indexAction"]
             no_metadata App.DefaultController ExpressRouter); [reflexivity|].
    repeat split; reflexivity.
Defined.

(** X7.  A class whose methods carry route decorators but which has no
    class decorator is registered without error, each route at the path
    ["undefined"] followed by the path of the route. *)
Theorem register_without_prefix (md : Metadata)
    (controller : ControllerClass) (router : list Layer)
    (routes : list RouteDefinition) :
  md_prefix md !! class_id controller = None ->
  md_routes md !! class_id controller = Some routes ->
  register md controller router =
  inr (router ++
       map (fun route =>
              LRoute (requestMethod route) ("undefined" +:+ path route)
                (bound md controller route))
         routes).
Proof.
  intros Hprefix Hroutes.
  by rewrite (register_layers _ _ _ _ Hroutes), Hprefix.
Qed.

Lemma register_without_prefix_witness :
  exists router,
    register
      (declare_all [DeclareRoute GET "/x" 1 "indexAction"] no_metadata)
      App.DefaultController ExpressRouter = inr router
    /\ bindings router = [(GET, "undefined/x"%string)].
Proof.
  eexists. split.
  - apply (register_without_prefix
             (declare_all [DeclareRoute GET "/x" 1 "indexAction"] no_metadata)
             App.DefaultController ExpressRouter
             [{| requestMethod := GET; path := "/x";
                 methodName := "indexAction" |}]).
    + vm_compute; reflexivity.
    + vm_compute; reflexivity.
  - vm_compute; reflexivity.
Defined.

(* ===================================================================== *)
(** ** What every handler invocation does *)
(* ===================================================================== *)

(** After a reply the server refused on an unfinished response, it takes
    a reply with status 500. *)
Lemma accepts_after_refusal (code : Z) (v : JsValue) (res : Response) :
  finished res = false ->
  accepts (res_status code res) = false ->
  accepts (res_status 500 (res_json v (res_status code res))) = true.
Proof.
  intros Hfin Hacc. unfold accepts at 1. cbn. by rewrite Hfin, Hacc.
Qed.

(** Closes a goal saying that a list is an earlier one with something
    short added at the end. *)
Ltac grows :=
  first
    [ exists []; split; [by rewrite app_nil_r | cbn; lia]
    | eexists; split; [reflexivity | cbn; lia]
    | eexists; split; [by rewrite <- app_assoc | cbn; lia] ].

(** X8.  Whatever the controller method does, the handler leaves the
    metadata store alone, issues at most two replies after what the method
    wrote and makes at most one console call.  When the method settles and
    leaves the response unfinished, and any [HttpException] it throws
    carries a status code within 100 to 999, the handler leaves the response
    finished and its promise resolves. *)
Theorem handler_footprint (h : BoundHandler) (req : Request) (w : World)
    (outcome : Outcome) (res1 : Response) :
  invoke (h_instance h) (methodName (h_route h)) req (w_res w) =
    (outcome, res1) ->
  w_metadata (handler h req w) = w_metadata w
  /\ (exists replies,
        written (w_res (handler h req w)) = written res1 ++ replies
        /\ (List.length replies <= 2)%nat)
  /\ (exists entries,
        w_console (handler h req w) = w_console w ++ entries
        /\ (List.length entries <= 1)%nat)
  /\ (finished res1 = false ->
      outcome <> NeverSettles ->
      (forall e, outcome = Raised (ThrownHttpException e) ->
                 100 <= Exception.status e <= 999) ->
      finished (w_res (handler h req w)) = true
      /\ fst (handler_run h req w) = Completed).
Proof.
  intros Hcall. unfold handler.
  destruct outcome as [v|[e|detail]|].
  - destruct (truthy v) eqn:Hv.
    + destruct
        (accepts
           (res_status
              (resolveStatusCode (w_metadata w) (h_statusCodes h) (h_route h))
              res1)) eqn:Hacc.
      * rewrite (handler_run_truthy_accepted _ _ _ _ _ Hcall Hv Hacc). cbn.
        split; [done|]. split; [grows|]. split; [grows|].
        intros Hfin _ _. by rewrite Hacc, orb_true_r.
      * rewrite (handler_run_truthy_refused _ _ _ _ _ Hcall Hv Hacc).
        unfold handleUnknownException, reply_json. cbn.
        split; [done|]. split; [grows|]. split; [grows|].
        intros Hfin _ _.
        by rewrite Hacc, Hfin, (accepts_after_refusal _ v _ Hfin Hacc).
    + destruct (finished res1) eqn:Hfin.
      * rewrite (handler_run_falsy_finished _ _ _ _ _ Hcall Hv Hfin). cbn.
        split; [done|]. split; [grows|]. split; [grows|done].
      * rewrite (handler_run_falsy_unfinished _ _ _ _ _ Hcall Hv Hfin).
        unfold sendNoData, reply_empty. cbn.
        split; [done|]. split; [grows|]. split; [grows|].
        intros _ _ _. unfold accepts. cbn. by rewrite Hfin.
  - rewrite (handler_run_http_exception _ _ _ _ _ Hcall).
    unfold reply_json. cbn.
    split; [done|]. split; [grows|]. split; [grows|].
    intros Hfin _ He. destruct (He e eq_refl) as [Hlo Hhi].
    apply Z.leb_le in Hlo, Hhi. unfold accepts. cbn.
    by rewrite Hfin, Hlo, Hhi.
  - rewrite (handler_run_unknown_exception _ _ _ _ _ Hcall).
    unfold handleUnknownException, reply_json. cbn.
    split; [done|]. split; [grows|]. split; [grows|].
    intros Hfin _ _. unfold accepts. cbn. by rewrite Hfin.
  - rewrite (handler_run_never_settles _ _ _ _ Hcall). cbn.
    split; [done|]. split; [grows|]. split; [grows|done].
Qed.

Lemma handler_footprint_witness :
  let h :=
    bound (Probe.create_only [Decorators.HttpStatus 1000 2 "create"])
      Probe.ProbeController Probe.create_route in
  let w := App.arriving (Probe.create_only [Decorators.HttpStatus 1000 2 "create"]) in
  finished (w_res (handler h (App.request "post" "/probe/") w)) = true
  /\ fst (handler_run h (App.request "post" "/probe/") w) = Completed.
Proof.
  intros h w.
  destruct (handler_footprint h (App.request "post" "/probe/") w
              (Returned (JObj [("ok"%string, JBool true)])) fresh_response
              eq_refl) as (_ & _ & _ & Hfin).
  apply Hfin; [reflexivity|discriminate|discriminate].
Defined.

(** X9.  A route whose handler name is not a method of the instance is
    answered like an unknown exception: one reply 500 with the fixed body
    and one [console.error], the response object otherwise untouched. *)
Theorem missing_method_reply (h : BoundHandler) (req : Request) (w : World) :
  h_instance h (methodName (h_route h)) = None ->
  written (w_res (handler h req w)) =
    written (w_res w) ++
    [(500, BodyJson (JObj [("error"%string, JStr "Internal Server Error");
                           ("status"%string, JNum 500)]))]
  /\ exists args,
       w_console (handler h req w) = w_console w ++ [ConsoleError args].
Proof.
  intros Hnone.
  assert (Hcall :
            invoke (h_instance h) (methodName (h_route h)) req (w_res w) =
            (Raised (ThrownOther (JStr "TypeError")), w_res w))
    by (unfold invoke; by rewrite Hnone).
  unfold handler. rewrite (handler_run_unknown_exception _ _ _ _ _ Hcall).
  split; [done|]. by eexists.
Qed.

Lemma missing_method_reply_witness :
  written
    (w_res
       (handler
          (bound Probe.loaded Probe.ProbeController (Probe.get_route "absent"))
          (App.request "get" "/probe/absent") (App.arriving Probe.loaded))) =
  [(500, BodyJson (JObj [("error"%string, JStr "Internal Server Error");
                         ("status"%string, JNum 500)]))].
Proof.
  apply (missing_method_reply
           (bound Probe.loaded Probe.ProbeController (Probe.get_route "absent"))
           (App.request "get" "/probe/absent") (App.arriving Probe.loaded)).
  reflexivity.
Defined.

(** A handler bound while the class had a status-code [Map] keeps seeing the
    class's reference, whatever is declared later. *)
Lemma status_reference_kept (ds : list Declaration) (md : Metadata)
    (target ref : positive) :
  md_status md !! target = Some ref ->
  md_status (declare_all ds md) !! target = Some ref.
Proof.
  intros Hstatus. induction ds as [|d ds IH] using rev_ind; [done|].
  rewrite declare_all_snoc.
  destruct d as [prefix t|method path t key|code t key]; cbn.
  - by destruct (Controller_status prefix t (declare_all ds md)) as [-> _].
  - by destruct (defineRouteDecorator_status method path t key
                   (declare_all ds md)) as [-> _].
  - destruct (md_status (declare_all ds md) !! t) as [r|] eqn:Ht.
    + by rewrite (HttpStatus_known _ _ _ _ _ Ht).
    + rewrite (HttpStatus_new _ _ _ _ Ht). cbn.
      rewrite lookup_insert_ne; [done|]. intros ->. congruence.
Qed.

(** X10.  When a class had a status-code [Map] at the time it was
    registered, its handlers resolve the status code from the overrides as
    they stand when the request is served, after whatever decorators ran in
    between.  A truthy value returned on an unfinished response is answered
    with the current override of the handler name when that is not 0, else
    with 201 for POST and 200 otherwise, provided the server takes that
    code (100 to 999). *)
Theorem late_declarations_seen (md : Metadata) (ds : list Declaration)
    (controller : ControllerClass) (route : RouteDefinition) (ref : positive)
    (req : Request) (w : World) (res1 : Response) (v : JsValue) :
  md_status md !! class_id controller = Some ref ->
  w_metadata w = declare_all ds md ->
  invoke (class_new controller) (methodName route) req (w_res w) =
    (Returned v, res1) ->
  finished res1 = false ->
  truthy v = true ->
  100 <= or_number
           (statusOverride (declare_all ds md) controller (methodName route))
           (if decide (requestMethod route = POST) then 201 else 200) <= 999 ->
  written (w_res (handler (bound md controller route) req w)) =
  written res1 ++
  [(or_number
      (statusOverride (declare_all ds md) controller (methodName route))
      (if decide (requestMethod route = POST) then 201 else 200),
    BodyJson v)].
Proof.
  intros Hstatus Hmd Hcall Hfin Hv [Hlo Hhi].
  assert (Hcode :
            resolveStatusCode (w_metadata w)
              (h_statusCodes (bound md controller route))
              (h_route (bound md controller route)) =
            or_number
              (statusOverride (declare_all ds md) controller
                 (methodName route))
              (if decide (requestMethod route = POST) then 201 else 200)).
  { unfold resolveStatusCode, statusOverride, bound. cbn.
    by rewrite Hstatus, Hmd, (status_reference_kept ds md _ _ Hstatus). }
  unfold handler.
  rewrite (handler_run_truthy_accepted (bound md controller route)
             req w res1 v Hcall Hv).
  - by rewrite Hcode.
  - rewrite Hcode. unfold accepts. cbn. rewrite Hfin. cbn.
    apply andb_true_intro. split; by apply Z.leb_le.
Qed.

Lemma late_declarations_seen_witness :
  written
    (w_res
       (handler
          (bound (Probe.create_only [Decorators.HttpStatus 207 2 "create"])
             Probe.ProbeController Probe.create_route)
          (App.request "post" "/probe/")
          (App.arriving
             (declare_all [DeclareStatus 202 2 "create"]
                (Probe.create_only [Decorators.HttpStatus 207 2 "create"]))))) =
  [(202, BodyJson (JObj [("ok"%string, JBool true)]))].
Proof.
  etrans.
  - apply (late_declarations_seen
             (Probe.create_only [Decorators.HttpStatus 207 2 "create"])
             [DeclareStatus 202 2 "create"]
             Probe.ProbeController Probe.create_route 1%positive
             (App.request "post" "/probe/")
             (App.arriving
                (declare_all [DeclareStatus 202 2 "create"]
                   (Probe.create_only [Decorators.HttpStatus 207 2 "create"])))
             fresh_response (JObj [("ok"%string, JBool true)])).
    + vm_compute; reflexivity.
    + reflexivity.
    + reflexivity.
    + reflexivity.
    + reflexivity.
    + vm_compute. split; discriminate.
  - vm_compute; reflexivity.
Defined.

(** X16.  When a truthy value is returned on an unfinished response and the
    resolved status code is one the server refuses (outside 100 to 999),
    the refused reply is followed by exactly one [console.error] and one
    reply 500 with the fixed body, which the server takes; the handler's
    promise resolves. *)
Theorem refused_status_reply (h : BoundHandler) (req : Request)
    (w : World) (res1 : Response) (v : JsValue) (prefix : string) :
  invoke (h_instance h) (methodName (h_route h)) req (w_res w) =
    (Returned v, res1) ->
  finished res1 = false ->
  truthy v = true ->
  ~ 100 <= resolveStatusCode (w_metadata w) (h_statusCodes h) (h_route h)
      <= 999 ->
  md_prefix (w_metadata w) !! class_id (h_controller h) = Some prefix ->
  written (w_res (handler h req w)) =
    written res1 ++
    [(resolveStatusCode (w_metadata w) (h_statusCodes h) (h_route h),
      BodyJson v);
     (500, BodyJson (JObj [("error"%string, JStr "Internal Server Error");
                           ("status"%string, JNum 500)]))]
  /\ w_console (handler h req w) =
     w_console w ++
     [ConsoleError
        [" * Error - Unknown exception thrown: " +:+ controllerName (h_controller h) +:+ LF;
         "* Route:                    " +:+ (prefix +:+ path (h_route h)) +:+ LF;
         "* Controller method name:   " +:+ methodName (h_route h) +:+ LF;
         "* HTTP method type:         " +:+ EHttpMethod_value (requestMethod (h_route h)) +:+ LF]]
  /\ finished (w_res (handler h req w)) = true
  /\ fst (handler_run h req w) = Completed.
Proof.
  intros Hcall Hfin Hv Hcode Hprefix.
  assert (Hacc :
            accepts
              (res_status
                 (resolveStatusCode (w_metadata w) (h_statusCodes h)
                    (h_route h))
                 res1) = false).
  { unfold accepts. cbn. rewrite Hfin. cbn.
    apply andb_false_iff.
    destruct (Z.leb_spec 100
                (resolveStatusCode (w_metadata w) (h_statusCodes h)
                   (h_route h))) as [Hlo|Hlo]; [|by left].
    right. apply Z.leb_gt. lia. }
  unfold handler.
  rewrite (handler_run_truthy_refused _ _ _ _ _ Hcall Hv Hacc).
  unfold handleUnknownException, reply_json, diagnosticRoute. cbn.
  rewrite Hprefix, <- app_assoc. cbn.
  by rewrite Hacc, Hfin, (accepts_after_refusal _ v _ Hfin Hacc).
Qed.

Lemma refused_status_reply_witness :
  let md := Probe.create_only [Decorators.HttpStatus 1000 2 "create"] in
  let h := bound md Probe.ProbeController Probe.create_route in
  written (w_res (handler h (App.request "post" "/probe/") (App.arriving md))) =
    [(1000, BodyJson (JObj [("ok"%string, JBool true)]));
     (500, BodyJson (JObj [("error"%string, JStr "Internal Server Error");
                           ("status"%string, JNum 500)]))]
  /\ fst (handler_run h (App.request "post" "/probe/") (App.arriving md)) =
     Completed.
Proof.
  intros md h.
  destruct (refused_status_reply h (App.request "post" "/probe/")
              (App.arriving md) fresh_response
              (JObj [("ok"%string, JBool true)]) "/probe"
              eq_refl eq_refl eq_refl) as (Hres & _ & _ & Hend).
  - vm_compute. intros [_ Hhi]. by apply Hhi.
  - vm_compute; reflexivity.
  - split; [|exact Hend]. rewrite Hres. vm_compute. reflexivity.
Defined.

(** X17.  When the controller method throws an [HttpException] whose reply
    the server refuses, because the status code is outside 100 to 999 or
    the method had already finished the response, the handler does nothing
    more: no console call, no further reply, the response as finished as the
    method left it, and the handler's promise rejected with nobody to catch
    it. *)
Theorem refused_exception_reply (h : BoundHandler) (req : Request)
    (w : World) (res1 : Response) (e : HttpException) :
  invoke (h_instance h) (methodName (h_route h)) req (w_res w) =
    (Raised (ThrownHttpException e), res1) ->
  finished res1 = true \/ ~ 100 <= Exception.status e <= 999 ->
  fst (handler_run h req w) = Threw refusal
  /\ finished (w_res (handler h req w)) = finished res1
  /\ List.length (written (w_res (handler h req w))) =
     S (List.length (written res1))
  /\ w_console (handler h req w) = w_console w.
Proof.
  intros Hcall Hrefused.
  assert (Hacc : accepts (res_status (Exception.status e) res1) = false).
  { unfold accepts. cbn. destruct Hrefused as [->|Hcode]; [done|].
    destruct (finished res1); [done|]. cbn. apply andb_false_iff.
    destruct (Z.leb_spec 100 (Exception.status e)) as [Hlo|Hlo]; [|by left].
    right. apply Z.leb_gt. lia. }
  unfold handler. rewrite (handler_run_http_exception _ _ _ _ _ Hcall).
  unfold reply_json. cbn. rewrite Hacc, orb_false_r.
  repeat split. by rewrite length_app, Nat.add_1_r.
Qed.

Lemma refused_exception_reply_witness :
  let h :=
    {| h_instance := fun _ =>
         Some (fun _ res =>
                 (Raised (ThrownHttpException
                            {| Exception.error := "Nothing";
                               Exception.status := 0 |}), res));
       h_controller := Probe.ProbeController;
       h_statusCodes := None;
       h_route := Probe.get_route "zero" |} in
  fst (handler_run h (App.request "get" "/probe/zero")
         (App.arriving Probe.loaded)) = Threw refusal
  /\ finished
       (w_res (handler h (App.request "get" "/probe/zero")
                 (App.arriving Probe.loaded))) = false.
Proof.
  intros h.
  destruct (refused_exception_reply h (App.request "get" "/probe/zero")
              (App.arriving Probe.loaded) fresh_response
              {| Exception.error := "Nothing"; Exception.status := 0 |}
              eq_refl) as (Hend & Hfin & _).
  - right. intros [Hlo _]. by apply Hlo.
  - split; [exact Hend|exact Hfin].
Defined.

(* ===================================================================== *)
(** ** Order of registration *)
(* ===================================================================== *)

Section Precedence.

Variable route_matches : EHttpMethod -> string -> Request -> bool.

Lemma dispatch_app (stack more : list Layer) (req : Request) (w : World) :
  dispatch route_matches (stack ++ more) req w =
  match dispatch route_matches stack req w with
  | Some w' => Some w'
  | None => dispatch route_matches more req w
  end.
Proof.
  induction stack as [|[method path h|f] stack IH]; cbn; [done| |done].
  by destruct (route_matches method path req).
Qed.

(** X11.  Once [middleware()] has been called, every request is answered by
    some handler of the router, and anything bound afterwards, by [register]
    or otherwise, is never reached: the replies are those of the router as
    [middleware()] returned it. *)
Theorem nothing_reachable_after_middleware (router later : list Layer)
    (req : Request) (w : World) :
  is_Some (dispatch route_matches (middleware router) req w)
  /\ dispatch route_matches (middleware router ++ later) req w =
     dispatch route_matches (middleware router) req w.
Proof.
  assert (Hsome : is_Some (dispatch route_matches (middleware router) req w)).
  { unfold middleware. rewrite dispatch_app.
    destruct (dispatch route_matches router req w); by eexists. }
  split; [done|]. rewrite dispatch_app. by destruct Hsome as [w' ->].
Qed.

(** X12.  Registering the same class a second time, the store unchanged,
    adds layers that are never reached: every request is served as after the
    first registration. *)
Theorem register_twice_same_replies (md : Metadata)
    (controller : ControllerClass) (router once twice : list Layer)
    (req : Request) (w : World) :
  register md controller router = inr once ->
  register md controller once = inr twice ->
  dispatch route_matches twice req w = dispatch route_matches once req w.
Proof.
  unfold register.
  destruct (md_routes md !! class_id controller) as [routes|]; [|done].
  rewrite !foldl_bind. intros [= <-] [= <-].
  rewrite <- !app_assoc, !dispatch_app.
  destruct (dispatch route_matches router req w); [done|].
  by destruct (dispatch route_matches _ req w).
Qed.

End Precedence.

Lemma register_twice_same_replies_witness :
  exists once twice,
    register App.loaded App.DefaultController ExpressRouter = inr once
    /\ register App.loaded App.DefaultController once = inr twice
    /\ dispatch App.exact_match twice (App.request "get" "/api/")
         (App.arriving App.loaded) =
       dispatch App.exact_match once (App.request "get" "/api/")
         (App.arriving App.loaded).
Proof.
  destruct (register App.loaded App.DefaultController ExpressRouter)
    as [e|once] eqn:Honce; [vm_compute in Honce; discriminate|].
  destruct (register App.loaded App.DefaultController once)
    as [e|twice] eqn:Htwice.
  { unfold register in Htwice. vm_compute in Htwice. discriminate. }
  exists once, twice. split; [done|]. split; [done|].
  exact (register_twice_same_replies App.exact_match App.loaded
           App.DefaultController ExpressRouter once twice
           (App.request "get" "/api/") (App.arriving App.loaded)
           Honce Htwice).
Defined.

(* ===================================================================== *)
(** ** The class name in diagnostics *)
(* ===================================================================== *)

Lemma split_space_token (name rest : string) :
  no_space name = true ->
  split_space (name +:+ String " "%char rest) = name :: split_space rest.
Proof.
  induction name as [|c name IH]; cbn [no_space]; [done|].
  intros [Hc Hname]%andb_prop. apply negb_true_iff in Hc.
  change (String c name +:+ String " "%char rest) with
    (String c (name +:+ String " "%char rest)).
  cbn [split_space]. by rewrite Hc, (IH Hname).
Qed.

Lemma split_space_no_space (s : string) :
  no_space s = true -> split_space s = [s].
Proof.
  induction s as [|c s IH]; cbn [no_space split_space]; [done|].
  intros [Hc Hs]%andb_prop. apply negb_true_iff in Hc. rewrite Hc.
  by rewrite (IH Hs).
Qed.

(** X13.  For a class whose text starts [class Name ] with [Name] free of
    spaces, both diagnostics name it [Name]; for a class whose text holds no
    space at all they print [undefined]. *)
Theorem controllerName_of_source (controller : ControllerClass)
    (name rest : string) :
  no_space name = true ->
  (class_source controller = "class " +:+ name +:+ String " "%char rest ->
   controllerName controller = name)
  /\ (class_source controller = name ->
      controllerName controller = "undefined"%string).
Proof.
  intros Hname. unfold controllerName. split; intros ->.
  - change ("class " +:+ name +:+ String " "%char rest) with
      ("class" +:+ String " "%char (name +:+ String " "%char rest)).
    rewrite split_space_token by done.
    by rewrite split_space_token.
  - by rewrite split_space_no_space.
Qed.

Lemma controllerName_of_source_witness :
  controllerName App.DefaultController = "DefaultController"%string.
Proof.
  by apply (controllerName_of_source App.DefaultController
              "DefaultController" "{").
Defined.

(* ===================================================================== *)
(** ** Earlier registrations come first *)
(* ===================================================================== *)

(** X14.  [register] never displaces what is bound already: a request the
    router answered before the call is answered in the same way after it,
    also when the class registered declares the same method and path. *)
Theorem register_keeps_earlier_replies
    (route_matches : EHttpMethod -> string -> Request -> bool)
    (md : Metadata) (controller : ControllerClass)
    (router router' : list Layer) (req : Request) (w w' : World) :
  register md controller router = inr router' ->
  dispatch route_matches router req w = Some w' ->
  dispatch route_matches router' req w = Some w'.
Proof.
  unfold register.
  destruct (md_routes md !! class_id controller) as [routes|]; [|done].
  rewrite foldl_bind. intros [= <-] Hbefore.
  by rewrite dispatch_app, Hbefore.
Qed.

Lemma register_keeps_earlier_replies_witness :
  exists first second w',
    register Probe.loaded Probe.ProbeController ExpressRouter = inr first
    /\ register Probe.loaded Probe.ProbeController first = inr second
    /\ dispatch App.exact_match second (App.request "post" "/probe/")
         (App.arriving Probe.loaded) = Some w'
    /\ written (w_res w') = [(201, BodyJson (JObj [("ok"%string, JBool true)]))].
Proof.
  destruct (register Probe.loaded Probe.ProbeController ExpressRouter)
    as [e|first] eqn:Hfirst; [vm_compute in Hfirst; discriminate|].
  destruct (register Probe.loaded Probe.ProbeController first)
    as [e|second] eqn:Hsecond.
  { unfold register in Hsecond. vm_compute in Hsecond. discriminate. }
  destruct (dispatch App.exact_match first (App.request "post" "/probe/")
              (App.arriving Probe.loaded)) as [w'|] eqn:Hbefore.
  - exists first, second, w'. split; [done|]. split; [done|]. split.
    + exact (register_keeps_earlier_replies App.exact_match Probe.loaded
               Probe.ProbeController first second
               (App.request "post" "/probe/") (App.arriving Probe.loaded) w'
               Hsecond Hbefore).
    + vm_compute in Hfirst. injection Hfirst as <-.
      vm_compute in Hbefore. injection Hbefore as <-. reflexivity.
  - vm_compute in Hfirst. injection Hfirst as <-.
    vm_compute in Hbefore. discriminate.
Defined.
